(** * Pixivera client: analysis orchestration layer

    A shallow embedding of the controller in [App.tsx], the media
    preprocessor and request client in [services/geminiService.ts], the
    data model of [types.ts] and the history list of [Dashboard.tsx].

    React state is an explicit record that every handler transforms; the
    host platform (network service, clock, canvas, UUID source, JSON parser)
    is a record of oracles; [try]/[catch] is a result type with a bind. *)

From Stdlib Require Import ZArith List String Ascii Bool Lia Floats.SpecFloat.
Import ListNotations.
Local Open Scope string_scope.
Local Open Scope Z_scope.

(** ** JavaScript numbers: IEEE 754 binary64 *)

Module Num.

Definition prec : Z := 53.
Definition emax : Z := 1024.

Definition number : Type := spec_float.

Definition mul : number -> number -> number := SFmul prec emax.
Definition div : number -> number -> number := SFdiv prec emax.

(** An integer literal, rounded to the nearest double. *)
Definition ofZ (z : Z) : number := binary_normalize prec emax z 0 false.

(** A decimal literal [m * 10^e], correctly rounded. *)
Definition ofDecimal (m : Z) (e : Z) : number :=
  match m with
  | Z0 => S754_zero false
  | _ =>
    let sx := m <? 0 in
    match e with
    | Zneg k =>
      let '(mz, ez, lz) :=
        SFdiv_core_binary prec emax (Z.abs m) 0 (Z.pow_pos 10 k) 0 in
      binary_round_aux prec emax sx mz ez lz
    | _ => binary_normalize prec emax (m * 10 ^ e) 0 false
    end
  end.

(** ToBoolean on a number: zero and NaN are falsy. *)
Definition truthy (x : number) : bool :=
  match x with
  | S754_zero _ | S754_nan => false
  | _ => true
  end.

(** The integer part (truncation toward zero) of a finite number. *)
Definition trunc (x : number) : Z :=
  match x with
  | S754_finite s m e =>
    let a := match e with
             | Zneg k => Z.shiftr (Zpos m) (Zpos k)
             | _ => Z.shiftl (Zpos m) e
             end in
    if s then - a else a
  | _ => 0
  end.

(** WebIDL conversion to [unsigned long]: NaN and infinities give 0,
    anything else is truncated and reduced modulo 2^32. *)
Definition toUint32 (x : number) : Z := trunc x mod 2 ^ 32.

End Num.

Definition number : Type := Num.number.

(** ** JavaScript strings

    A string is a sequence of code units; the model covers the code units
    below 256, one [ascii] each. *)

Definition charCode (c : ascii) : Z := Z.of_N (N_of_ascii c).

(** [toLowerCase] on one code unit: A-Z, and the Latin-1 capitals
    U+00C0..U+00DE without the multiplication sign U+00D7. *)
Definition lowerChar (c : ascii) : ascii :=
  let n := charCode c in
  if ((65 <=? n) && (n <=? 90))
     || ((192 <=? n) && (n <=? 222) && negb (n =? 215))
  then ascii_of_N (Z.to_N (n + 32))
  else c.

Fixpoint toLowerCase (s : string) : string :=
  match s with
  | EmptyString => EmptyString
  | String c r => String (lowerChar c) (toLowerCase r)
  end.

Fixpoint startsWith (s p : string) : bool :=
  match p, s with
  | EmptyString, _ => true
  | String _ _, EmptyString => false
  | String a p', String b s' => Ascii.eqb a b && startsWith s' p'
  end.

(** [s.includes(sub)]: [sub] occurs at some position of [s]. *)
Fixpoint includes (s sub : string) : bool :=
  startsWith s sub ||
  match s with
  | EmptyString => false
  | String _ r => includes r sub
  end.

(** [s.split(',')[1]]: the text between the first and the second comma;
    [None] stands for [undefined], when [s] has no comma. *)
Fixpoint upToComma (s : string) : string :=
  match s with
  | EmptyString => EmptyString
  | String c r => if Ascii.eqb c "," then EmptyString else String c (upToComma r)
  end.

Fixpoint splitComma1 (s : string) : option string :=
  match s with
  | EmptyString => None
  | String c r => if Ascii.eqb c "," then Some (upToComma r) else splitComma1 r
  end.

(** ** JavaScript values, as far as the controller looks into them *)

#[warnings="-register-all"]
Inductive JSValue : Type :=
| JUndefined
| JNull
| JBool (b : bool)
| JNum (x : number)
| JStr (s : string)
| JArr (items : list JSValue)
| JObj (fields : list (string * JSValue)).

Definition num (z : Z) : JSValue := JNum (Num.ofZ z).

(** ToBoolean. *)
Definition truthy (v : JSValue) : bool :=
  match v with
  | JUndefined | JNull => false
  | JBool b => b
  | JNum x => Num.truthy x
  | JStr s => negb (String.eqb s EmptyString)
  | JArr _ | JObj _ => true
  end.

(** [v == null]: the values whose properties cannot be read. *)
Definition nullish (v : JSValue) : bool :=
  match v with
  | JUndefined | JNull => true
  | _ => false
  end.

(** [a || b] *)
Definition or_else (a b : JSValue) : JSValue := if truthy a then a else b.

(** [typeof v === 'number'] *)
Definition isNumber (v : JSValue) : bool :=
  match v with JNum _ => true | _ => false end.

Fixpoint lookup (k : string) (fields : list (string * JSValue)) : JSValue :=
  match fields with
  | [] => JUndefined
  | (k', v) :: rest => if String.eqb k k' then v else lookup k rest
  end.

(** What a [try] block yields: a value, or the thrown thing. *)
Inductive JSError : Type :=
| ErrorObj (message : string)   (* an instance of Error *)
| Thrown.                        (* anything else, e.g. a ProgressEvent *)

Inductive Result (A : Type) : Type :=
| Ok (a : A)
| Err (e : JSError).
Arguments Ok {A} a.
Arguments Err {A} e.

Definition bind {A B} (r : Result A) (k : A -> Result B) : Result B :=
  match r with
  | Ok a => k a
  | Err e => Err e
  end.

Notation "x <- r ;; k" := (bind r (fun x => k))
  (at level 61, r at next level, right associativity).

Definition isOk {A} (r : Result A) : bool :=
  match r with Ok _ => true | Err _ => false end.

(** [v.k] for one of the controller's field names: a [TypeError] on
    [undefined] and [null], the own property of an object, and [undefined]
    on every other value (none of the names is on a built-in prototype). *)
Definition getProp (v : JSValue) (k : string) : Result JSValue :=
  match v with
  | JUndefined | JNull => Err (ErrorObj "Cannot read properties of undefined")
  | JObj fields => Ok (lookup k fields)
  | _ => Ok JUndefined
  end.

(** The property as an object spread [{...v}] copies it: nothing is copied
    from [undefined], [null] and the other values without such a key. *)
Definition spreadProp (v : JSValue) (k : string) : JSValue :=
  match v with
  | JObj fields => lookup k fields
  | _ => JUndefined
  end.

(** ** Data model ([types.ts]) *)

Inductive ViewState : Type :=
| HOME | SCANNING | RESULT | BATCH_PROCESSING | BATCH_RESULT | DASHBOARD | SETTINGS.

Inductive AnalysisStatus : Type :=
| IDLE | UPLOADING | ANALYZING | COMPLETE | ERROR.

(** What decoding the file as an image gives: [img.onerror], or
    [img.onload] with the natural size ([unsigned long] each). *)
Inductive ImageLoad : Type :=
| Broken
| Decoded (width height : Z).

(** A browser [File]: its name and MIME type, the base64 text of its bytes
    (what [readAsDataURL] puts after the comma), whether a [FileReader]
    can read it, and how it decodes. *)
Record File : Type := {
  name : string;
  type : string;
  rawBase64 : string;
  readable : bool;
  image : ImageLoad
}.

(** The interface types are erased at run time, and both the bridge and
    the service deliver untyped JSON: a field holds a JavaScript value. *)
Record AnalysisResult : Type := {
  isAI : JSValue;
  score : JSValue;
  verdict : JSValue;
  reasoning : JSValue;
  technicalDetails : JSValue;
  modelSignature : JSValue;
  forensicMetrics : JSValue;
  humanPerception : JSValue;
  suspiciousRegions : JSValue;
  watermark : JSValue;
  videoAnalysis : JSValue;
  timestamp : string
}.

Record BatchAnalysisResult : Type := {
  fileName : string;
  result : AnalysisResult;
  batchThumbnail : string
}.

(** [HistoryItem extends AnalysisResult]: the spread result, then the two
    added fields. *)
Record HistoryItem : Type := {
  analysis : AnalysisResult;
  id : string;
  thumbnail : string
}.

Record FileData : Type := {
  file : option File;
  previewUrl : string;
  mimeType : string;
  base64 : string
}.

(** ** The host platform

    Everything the controller calls and does not define.  The oracles that
    stand for the outside world take the number of scans and injections
    handled so far, so that equal requests may get different answers. *)
Record Host : Type := {
  (** [JSON.parse]; a [SyntaxError] is an [Err]. *)
  JSON_parse : string -> Result JSValue;
  (** [ai.models.generateContent(...)] on a payload and a MIME type:
      it throws, or answers with [response.text], possibly [undefined]. *)
  generateContent : nat -> string -> string -> Result (option string);
  (** [new Date().toISOString()] *)
  now : nat -> string;
  (** [crypto.randomUUID()] *)
  randomUUID : nat -> string;
  (** [URL.createObjectURL(file)] *)
  createObjectURL : nat -> File -> string;
  (** Whether [canvas.getContext('2d')] of a canvas of that size is not null. *)
  getContext2d : Z -> Z -> bool;
  (** The base64 body of [canvas.toDataURL(type, quality)] after the image
      was drawn on a canvas of that size. *)
  encodeCanvas : File -> Z -> Z -> string -> number -> string;
  (** Whether [index.html] had installed a [window.handleResult]. *)
  originalHandleResult : bool
}.

(** ** Media preprocessor ([geminiService.ts]) *)

Definition MAX_WIDTH : Z := 1024.
Definition MAX_HEIGHT : Z := 1024.

(** The quality argument of [toDataURL], the literal [0.85]. *)
Definition JPEG_QUALITY : number := Num.ofDecimal 85 (-2).

(** [reader.readAsDataURL(file)], then [reader.result] in [onload];
    [onerror] hands over a ProgressEvent. *)
Definition readAsDataURL (f : File) : Result string :=
  if readable f then
    Ok ("data:" ++ (if String.eqb (type f) EmptyString then "application/octet-stream" else type f)
        ++ ";base64," ++ rawBase64 f)
  else Err Thrown.

(** [url.split(',')[1]]; every data URL has the comma. *)
Definition afterComma (url : string) : string :=
  match splitComma1 url with
  | Some b => b
  | None => EmptyString
  end.

(** The size computation of [img.onload].  [img.width] and [img.height] are
    integers and stay so until one of them is scaled; the scaled one is the
    double [side * (MAX / other)], and writing it to [canvas.width] or
    [canvas.height] converts it to [unsigned long]. *)
Definition canvasSize (width height : Z) : Z * Z :=
  if width >? height then
    if width >? MAX_WIDTH then
      (MAX_WIDTH,
       Num.toUint32 (Num.mul (Num.ofZ height) (Num.div (Num.ofZ MAX_WIDTH) (Num.ofZ width))))
    else (width, height)
  else
    if height >? MAX_HEIGHT then
      (Num.toUint32 (Num.mul (Num.ofZ width) (Num.div (Num.ofZ MAX_HEIGHT) (Num.ofZ height))),
       MAX_HEIGHT)
    else (width, height).

(** [canvas.toDataURL(type, quality)]: a canvas without pixels gives
    ["data:,"].  Here [ctx.drawImage] and [canvas.toDataURL] return; what
    happens when one of them throws is kept in [optimizePromise] below. *)
Definition toDataURL (host : Host) (f : File) (cw ch : Z) (ty : string) (q : number)
  : string :=
  if (cw =? 0) || (ch =? 0) then "data:,"
  else "data:" ++ ty ++ ";base64," ++ encodeCanvas host f cw ch ty q.

(** The resolved value of [optimizeImageForMobile]; the canvas size is
    kept beside it for the statements about the output dimensions. *)
Record Optimized : Type := {
  optBase64 : string;
  optMimeType : string;
  optWidth : Z;
  optHeight : Z
}.

Definition optimizeImageForMobile (host : Host) (f : File) : Result Optimized :=
  _ <- readAsDataURL f ;;
  match image f with
  | Broken => Err (ErrorObj "Image processing failed: [object Event]")
  | Decoded w h =>
    let '(cw, ch) := canvasSize w h in
    if getContext2d host cw ch then
      let optimizedDataUrl := toDataURL host f cw ch "image/jpeg" JPEG_QUALITY in
      Ok {| optBase64 := afterComma optimizedDataUrl;
            optMimeType := "image/jpeg";
            optWidth := cw;
            optHeight := ch |}
    else Err (ErrorObj "Canvas context failed")
  end.

Definition fileToBase64 (host : Host) (f : File) : Result string :=
  if startsWith (type f) "image/" then
    match optimizeImageForMobile host f with
    | Ok optimized => Ok (optBase64 optimized)
    | Err _ =>
      (* Fallback to original logic if canvas fails *)
      url <- readAsDataURL f ;;
      Ok (afterComma url)
    end
  else
    url <- readAsDataURL f ;;
    Ok (afterComma url).

(** ** The preprocessor's promise

    A [Result] is a promise that settles.  [ctx.drawImage] and
    [canvas.toDataURL] run inside [img.onload], outside every [try]: when
    one of them throws, [optimizeImageForMobile] neither resolves nor
    rejects, and the [await] of [fileToBase64] never returns.  The two
    definitions above and the controller take both calls to return; the
    two below keep the third outcome.  [canvasThrows f cw ch] says whether
    drawing [f] on a canvas of that size, or encoding the canvas, throws. *)
Inductive Settlement (A : Type) : Type :=
| Settled (r : Result A)
| Pending.

Arguments Settled {A} r.
Arguments Pending {A}.

Definition optimizePromise (host : Host) (canvasThrows : File -> Z -> Z -> bool)
  (f : File) : Settlement Optimized :=
  match readAsDataURL f with
  | Err e => Settled (Err e)
  | Ok _ =>
    match image f with
    | Broken => Settled (Err (ErrorObj "Image processing failed: [object Event]"))
    | Decoded w h =>
      let '(cw, ch) := canvasSize w h in
      if getContext2d host cw ch then
        if canvasThrows f cw ch then Pending
        else
          let optimizedDataUrl := toDataURL host f cw ch "image/jpeg" JPEG_QUALITY in
          Settled (Ok {| optBase64 := afterComma optimizedDataUrl;
                         optMimeType := "image/jpeg";
                         optWidth := cw;
                         optHeight := ch |})
      else Settled (Err (ErrorObj "Canvas context failed"))
    end
  end.

Definition fileToBase64Promise (host : Host) (canvasThrows : File -> Z -> Z -> bool)
  (f : File) : Settlement string :=
  if startsWith (type f) "image/" then
    match optimizePromise host canvasThrows f with
    | Settled (Ok optimized) => Settled (Ok (optBase64 optimized))
    | Settled (Err _) =>
      (* Fallback to original logic if canvas fails *)
      Settled (url <- readAsDataURL f ;; Ok (afterComma url))
    | Pending => Pending
    end
  else
    Settled (url <- readAsDataURL f ;; Ok (afterComma url)).

(** ** Analysis request client *)

(** [{...data, timestamp}] *)
Definition stamp (data : JSValue) (ts : string) : AnalysisResult :=
  {| isAI := spreadProp data "isAI";
     score := spreadProp data "score";
     verdict := spreadProp data "verdict";
     reasoning := spreadProp data "reasoning";
     technicalDetails := spreadProp data "technicalDetails";
     modelSignature := spreadProp data "modelSignature";
     forensicMetrics := spreadProp data "forensicMetrics";
     humanPerception := spreadProp data "humanPerception";
     suspiciousRegions := spreadProp data "suspiciousRegions";
     watermark := spreadProp data "watermark";
     videoAnalysis := spreadProp data "videoAnalysis";
     timestamp := ts |}.

Definition analyzeContent (host : Host) (t : nat) (base64Data mimeType : string)
  : Result AnalysisResult :=
  response <- generateContent host t base64Data mimeType ;;
  match response with
  | None | Some EmptyString => Err (ErrorObj "No response from AI")
  | Some text =>
    data <- JSON_parse host text ;;
    Ok (stamp data (now host t))
  end.

(** ** Controller state ([App.tsx])

    The [useState] cells of [App], followed by what the controller does to
    the outside: the alerts shown, the files handed to the preprocessor,
    the requests sent to the service, the values passed on to the handler
    of [index.html], and the count of scans and injections so far. *)
Record AppState : Type := {
  view : ViewState;
  status : AnalysisStatus;
  currentFile : option FileData;
  currentResult : option AnalysisResult;
  batchQueue : list File;
  batchResults : list BatchAnalysisResult;
  batchProgress : Z;
  history : list HistoryItem;
  alerts : list string;
  scanned : list File;
  requests : list (string * string);
  legacyCalls : list JSValue;
  tick : nat
}.

Definition initialState : AppState :=
  {| view := HOME; status := IDLE; currentFile := None; currentResult := None;
     batchQueue := []; batchResults := []; batchProgress := 0; history := [];
     alerts := []; scanned := []; requests := []; legacyCalls := []; tick := O |}.

Definition setView (v : ViewState) (s : AppState) : AppState :=
  {| view := v; status := status s; currentFile := currentFile s;
     currentResult := currentResult s; batchQueue := batchQueue s;
     batchResults := batchResults s; batchProgress := batchProgress s;
     history := history s; alerts := alerts s; scanned := scanned s;
     requests := requests s; legacyCalls := legacyCalls s; tick := tick s |}.

Definition setStatus (st : AnalysisStatus) (s : AppState) : AppState :=
  {| view := view s; status := st; currentFile := currentFile s;
     currentResult := currentResult s; batchQueue := batchQueue s;
     batchResults := batchResults s; batchProgress := batchProgress s;
     history := history s; alerts := alerts s; scanned := scanned s;
     requests := requests s; legacyCalls := legacyCalls s; tick := tick s |}.

Definition setCurrentFile (f : option FileData) (s : AppState) : AppState :=
  {| view := view s; status := status s; currentFile := f;
     currentResult := currentResult s; batchQueue := batchQueue s;
     batchResults := batchResults s; batchProgress := batchProgress s;
     history := history s; alerts := alerts s; scanned := scanned s;
     requests := requests s; legacyCalls := legacyCalls s; tick := tick s |}.

Definition setCurrentResult (r : option AnalysisResult) (s : AppState) : AppState :=
  {| view := view s; status := status s; currentFile := currentFile s;
     currentResult := r; batchQueue := batchQueue s;
     batchResults := batchResults s; batchProgress := batchProgress s;
     history := history s; alerts := alerts s; scanned := scanned s;
     requests := requests s; legacyCalls := legacyCalls s; tick := tick s |}.

Definition setBatchQueue (q : list File) (s : AppState) : AppState :=
  {| view := view s; status := status s; currentFile := currentFile s;
     currentResult := currentResult s; batchQueue := q;
     batchResults := batchResults s; batchProgress := batchProgress s;
     history := history s; alerts := alerts s; scanned := scanned s;
     requests := requests s; legacyCalls := legacyCalls s; tick := tick s |}.

(** The three setters below take the updater function, as the source
    calls them: [setX(prev => ...)]. *)
Definition setBatchResults (upd : list BatchAnalysisResult -> list BatchAnalysisResult)
  (s : AppState) : AppState :=
  {| view := view s; status := status s; currentFile := currentFile s;
     currentResult := currentResult s; batchQueue := batchQueue s;
     batchResults := upd (batchResults s); batchProgress := batchProgress s;
     history := history s; alerts := alerts s; scanned := scanned s;
     requests := requests s; legacyCalls := legacyCalls s; tick := tick s |}.

Definition setBatchProgress (upd : Z -> Z) (s : AppState) : AppState :=
  {| view := view s; status := status s; currentFile := currentFile s;
     currentResult := currentResult s; batchQueue := batchQueue s;
     batchResults := batchResults s; batchProgress := upd (batchProgress s);
     history := history s; alerts := alerts s; scanned := scanned s;
     requests := requests s; legacyCalls := legacyCalls s; tick := tick s |}.

Definition setHistory (upd : list HistoryItem -> list HistoryItem) (s : AppState)
  : AppState :=
  {| view := view s; status := status s; currentFile := currentFile s;
     currentResult := currentResult s; batchQueue := batchQueue s;
     batchResults := batchResults s; batchProgress := batchProgress s;
     history := upd (history s); alerts := alerts s; scanned := scanned s;
     requests := requests s; legacyCalls := legacyCalls s; tick := tick s |}.

(** [alert(msg)] *)
Definition alert (msg : string) (s : AppState) : AppState :=
  {| view := view s; status := status s; currentFile := currentFile s;
     currentResult := currentResult s; batchQueue := batchQueue s;
     batchResults := batchResults s; batchProgress := batchProgress s;
     history := history s; alerts := alerts s ++ [msg]; scanned := scanned s;
     requests := requests s; legacyCalls := legacyCalls s; tick := tick s |}.

(** A file enters [fileToBase64]. *)
Definition noteScan (f : File) (s : AppState) : AppState :=
  {| view := view s; status := status s; currentFile := currentFile s;
     currentResult := currentResult s; batchQueue := batchQueue s;
     batchResults := batchResults s; batchProgress := batchProgress s;
     history := history s; alerts := alerts s; scanned := scanned s ++ [f];
     requests := requests s; legacyCalls := legacyCalls s; tick := tick s |}.

(** A payload and its MIME type enter [analyzeContent]. *)
Definition noteRequest (payload mime : string) (s : AppState) : AppState :=
  {| view := view s; status := status s; currentFile := currentFile s;
     currentResult := currentResult s; batchQueue := batchQueue s;
     batchResults := batchResults s; batchProgress := batchProgress s;
     history := history s; alerts := alerts s; scanned := scanned s;
     requests := requests s ++ [(payload, mime)]; legacyCalls := legacyCalls s;
     tick := tick s |}.

Definition noteLegacyCall (v : JSValue) (s : AppState) : AppState :=
  {| view := view s; status := status s; currentFile := currentFile s;
     currentResult := currentResult s; batchQueue := batchQueue s;
     batchResults := batchResults s; batchProgress := batchProgress s;
     history := history s; alerts := alerts s; scanned := scanned s;
     requests := requests s; legacyCalls := legacyCalls s ++ [v]; tick := tick s |}.

(** One scan or injection is over. *)
Definition advance (s : AppState) : AppState :=
  {| view := view s; status := status s; currentFile := currentFile s;
     currentResult := currentResult s; batchQueue := batchQueue s;
     batchResults := batchResults s; batchProgress := batchProgress s;
     history := history s; alerts := alerts s; scanned := scanned s;
     requests := requests s; legacyCalls := legacyCalls s; tick := S (tick s) |}.

(** [file.type.startsWith('image/') ? 'image/jpeg' : file.type] *)
Definition effectiveMimeType (f : File) : string :=
  if startsWith (type f) "image/" then "image/jpeg" else type f.

(** [{ ...result, id: crypto.randomUUID(), thumbnail }] *)
Definition historyItem (host : Host) (t : nat) (r : AnalysisResult) (thumb : string)
  : HistoryItem :=
  {| analysis := r; id := randomUUID host t; thumbnail := thumb |}.

(** ** Native bridge adapter: [window.handleResult] *)

(** The [catch] branch of [JSON.parse]: the keyword heuristic. *)
Definition keywordVerdict (result : string) : JSValue :=
  let isAI := includes (toLowerCase result) "ai"
              || includes (toLowerCase result) "synthetic" in
  JObj [ ("isAI", JBool isAI);
         ("score", if isAI then num 95 else num 5);
         ("verdict", JStr (if isAI then "SYNTHETIC DETECTED" else "AUTHENTIC MEDIA")) ].

Definition parsePayload (host : Host) (result : JSValue) : JSValue :=
  match result with
  | JStr text =>
    match JSON_parse host text with
    | Ok v => v
    | Err _ => keywordVerdict text
    end
  | _ => result
  end.

Definition defaultForensicMetrics : JSValue :=
  JObj [ ("biometricIntegrity", num 50); ("textureFidelity", num 50);
         ("lightingConsistency", num 50); ("physicalLogic", num 50) ].

Definition defaultHumanPerception : JSValue :=
  JObj [ ("realnessScore", num 50); ("suspiciousnessScore", num 50);
         ("perceptualInconsistency", num 0); ("artifactLevel", num 0) ].

(** The object literal [mappedResult].  Reading a property of [undefined]
    or [null] throws, at the first field; on any other value the reads are
    those of [spreadProp]. *)
Definition mapResult (parsedData : JSValue) (ts : string) : Result AnalysisResult :=
  let field := spreadProp parsedData in
  _ <- getProp parsedData "isAI" ;;
  Ok {| isAI := or_else (field "isAI") (JBool false);
        score := if isNumber (field "score") then field "score"
                 else if truthy (field "isAI") then num 98 else num 2;
        verdict := or_else (field "verdict")
                     (if truthy (field "isAI") then JStr "SYNTHETIC DETECTED"
                      else JStr "AUTHENTIC");
        reasoning := or_else (field "reasoning")
                       (JStr "Analysis provided by iOS Neural Engine Bridge.");
        technicalDetails := or_else (field "technicalDetails")
                              (JArr [ JStr "External verification complete";
                                      JStr "Bridge data integrity: OK" ]);
        modelSignature := or_else (field "modelSignature")
                            (JObj [ ("name", JStr "External Model");
                                    ("confidence", num 0) ]);
        forensicMetrics := or_else (field "forensicMetrics") defaultForensicMetrics;
        humanPerception := or_else (field "humanPerception") defaultHumanPerception;
        suspiciousRegions := or_else (field "suspiciousRegions") (JArr []);
        watermark := or_else (field "watermark")
                       (JObj [ ("detected", JBool false); ("signatures", JArr []) ]);
        videoAnalysis := JUndefined;
        timestamp := ts |}.

Definition placeholderFile : FileData :=
  {| file := None; previewUrl := EmptyString; mimeType := "application/octet-stream";
     base64 := EmptyString |}.

Definition handleResult (host : Host) (result : JSValue) (s : AppState) : AppState :=
  (* 1. the handler of index.html first; what it throws is caught *)
  let s := if originalHandleResult host then noteLegacyCall result s else s in
  (* 2. the React state; what this throws is caught and logged *)
  let t := tick s in
  advance
    match mapResult (parsePayload host result) (now host t) with
    | Ok mappedResult =>
      let s := match currentFile s with
               | None => setCurrentFile (Some placeholderFile) s
               | Some _ => s
               end in
      let s := setCurrentResult (Some mappedResult) s in
      let s := setStatus COMPLETE s in
      let s := setView RESULT s in
      setHistory (fun prev => historyItem host t mappedResult EmptyString :: prev) s
    | Err _ => s
    end.

(** ** Batch job runner: the [processQueue] effect *)

(** The guard of the effect and of [processQueue] itself. *)
Definition queueActive (s : AppState) : bool :=
  match view s, batchQueue s with
  | BATCH_PROCESSING, _ :: _ => true
  | _, _ => false
  end.

(** One run of [processQueue]: the head of the queue goes through the
    preprocessor and the client; whatever either throws is caught and
    logged, and the file leaves the queue in both cases. *)
Definition processQueue (host : Host) (s : AppState) : AppState :=
  match view s, batchQueue s with
  | BATCH_PROCESSING, file :: remaining =>
    let t := tick s in
    let s := noteScan file s in
    let s :=
      match fileToBase64 host file with
      | Ok base64 =>
        let previewUrl := createObjectURL host t file in
        let mimeType := effectiveMimeType file in
        let s := noteRequest base64 mimeType s in
        match analyzeContent host t base64 mimeType with
        | Ok result =>
          let batchResult :=
            {| fileName := name file; result := result; batchThumbnail := previewUrl |} in
          let s := setBatchResults (fun prev => (prev ++ [batchResult])%list) s in
          setHistory (fun prev => historyItem host t result previewUrl :: prev) s
        | Err _ => s
        end
      | Err _ => s
      end in
    let s := setBatchQueue remaining s in
    let s := setBatchProgress (fun prev => prev + 1) s in
    let s := match remaining with
             | [] => setStatus COMPLETE (setView BATCH_RESULT s)
             | _ :: _ => s
             end in
    advance s
  | _, _ => s
  end.

(** React runs the effect again whenever [view] or [batchQueue] changed:
    at most [fuel] runs, stopping as soon as the guard is false. *)
Fixpoint drainQueue (host : Host) (fuel : nat) (s : AppState) : AppState :=
  match fuel with
  | O => s
  | S fuel' => if queueActive s then drainQueue host fuel' (processQueue host s) else s
  end.

(** ** Scan entry point: [handleScanStart] *)

(** The [catch] block of the single-file path. *)
Definition alertText (e : JSError) : string :=
  let msg := match e with
             | ErrorObj message => message
             | Thrown => "Unknown error"
             end in
  "Analysis Error: " ++ msg ++ ". Try a smaller image.".

Definition scanFailed (e : JSError) (s : AppState) : AppState :=
  let s := setStatus ERROR s in
  let s := alert (alertText e) s in
  setView HOME s.

(** The synchronous part: up to the first [await] with one file, all of
    the function otherwise. *)
Definition handleScanStart_enter (files : list File) (s : AppState) : AppState :=
  match files with
  | [] => s
  | [_] =>
    let s := setStatus ANALYZING s in
    setView SCANNING s
  | _ =>
    let s := setBatchQueue files s in
    let s := setBatchResults (fun _ => []) s in
    let s := setBatchProgress (fun _ => 0) s in
    let s := setView BATCH_PROCESSING s in
    setStatus ANALYZING s
  end.

(** The rest of the single-file path, once the two awaited calls have
    settled. *)
Definition handleScanStart_settle (host : Host) (files : list File) (s : AppState)
  : AppState :=
  match files with
  | [file] =>
    let t := tick s in
    let previewUrl := createObjectURL host t file in
    let s := noteScan file s in
    advance
      match fileToBase64 host file with
      | Ok base64 =>
        let effectiveMimeType := effectiveMimeType file in
        let s := setCurrentFile
                   (Some {| file := Some file; previewUrl := previewUrl;
                            mimeType := effectiveMimeType; base64 := base64 |}) s in
        let s := noteRequest base64 effectiveMimeType s in
        match analyzeContent host t base64 effectiveMimeType with
        | Ok result =>
          let s := setCurrentResult (Some result) s in
          let s := setHistory (fun prev => historyItem host t result previewUrl :: prev) s in
          let s := setStatus COMPLETE s in
          setView RESULT s
        | Err e => scanFailed e s
        end
      | Err e => scanFailed e s
      end
  | _ => s
  end.

Definition handleScanStart (host : Host) (files : list File) (s : AppState) : AppState :=
  handleScanStart_settle host files (handleScanStart_enter files s).

Definition resetScanner (s : AppState) : AppState :=
  let s := setCurrentFile None s in
  let s := setCurrentResult None s in
  let s := setBatchQueue [] s in
  let s := setBatchResults (fun _ => []) s in
  let s := setStatus IDLE s in
  setView HOME s.

(** ** Display layer ([Dashboard.tsx]) *)

(** The list under "Recent Analysis Logs": [history.slice().reverse()]. *)
Definition recentLogs (history : list HistoryItem) : list HistoryItem := rev history.

(** ** The controller as a transition system *)

Inductive Event : Type :=
| SelectFiles (files : list File)     (* Scanner's onScanStart *)
| QueueEffect                         (* the processQueue effect fires *)
| BridgeResult (result : JSValue)     (* the host calls window.handleResult *)
| Reset                               (* onReset of the result views *)
| Navigate (v : ViewState).           (* Layout's onNavigate = setView *)

Definition step (host : Host) (s : AppState) (ev : Event) : AppState :=
  match ev with
  | SelectFiles files => handleScanStart host files s
  | QueueEffect => processQueue host s
  | BridgeResult result => handleResult host result s
  | Reset => resetScanner s
  | Navigate v => setView v s
  end.

Definition run (host : Host) (s : AppState) (evs : list Event) : AppState :=
  fold_left (step host) evs s.

(** The outcome of one scan (preprocessing, then the request) made when
    [t] scans and injections have gone before. *)
Definition scanFile (host : Host) (t : nat) (f : File) : Result AnalysisResult :=
  base64 <- fileToBase64 host f ;;
  analyzeContent host t base64 (effectiveMimeType f).

(** How many files of a batch started at count [t] fail. *)
Fixpoint failures (host : Host) (t : nat) (files : list File) : nat :=
  match files with
  | [] => O
  | f :: rest =>
    ((if isOk (scanFile host t f) then 0 else 1) + failures host (S t) rest)%nat
  end.



(** Whether an event completes an analysis. *)
Definition completes (host : Host) (s : AppState) (ev : Event) : bool :=
  match ev with
  | SelectFiles [f] => isOk (scanFile host (tick s) f)
  | SelectFiles _ => false
  | QueueEffect =>
    match view s, batchQueue s with
    | BATCH_PROCESSING, f :: _ => isOk (scanFile host (tick s) f)
    | _, _ => false
    end
  | BridgeResult result => isOk (mapResult (parsePayload host result) (now host (tick s)))
  | Reset | Navigate _ => false
  end.

(** ** A reference host

    The statements below hold for every [Host].  To run the controller on
    concrete inputs one host is fixed here: its [JSON_parse] reads the JSON
    grammar (numbers correctly rounded; a [\u] escape of a code unit above
    255 is outside the string model and refused), its service answers from
    a table, its canvas always has a context. *)

Module JSON.

Definition isWs (c : ascii) : bool :=
  let n := charCode c in (n =? 32) || (n =? 9) || (n =? 10) || (n =? 13).

Fixpoint skipWs (s : string) : string :=
  match s with
  | String c r => if isWs c then skipWs r else s
  | EmptyString => s
  end.

Definition digit (c : ascii) : option Z :=
  let n := charCode c in
  if (48 <=? n) && (n <=? 57) then Some (n - 48) else None.

Definition hexDigit (c : ascii) : option Z :=
  let n := charCode c in
  if (48 <=? n) && (n <=? 57) then Some (n - 48)
  else if (65 <=? n) && (n <=? 70) then Some (n - 55)
  else if (97 <=? n) && (n <=? 102) then Some (n - 87)
  else None.

(** The digits at the front of [s]: their value after [acc], how many
    they are, and what follows them. *)
Fixpoint digits (s : string) (acc : Z) (count : Z) : Z * Z * string :=
  match s with
  | String c r =>
    match digit c with
    | Some d => digits r (10 * acc + d) (count + 1)
    | None => (acc, count, s)
    end
  | EmptyString => (acc, count, s)
  end.

Definition parseExponent (s : string) : option (Z * string) :=
  match s with
  | String c r =>
    if Ascii.eqb c "e" || Ascii.eqb c "E" then
      let '(neg, r) :=
        match r with
        | String sg r' =>
          if Ascii.eqb sg "-" then (true, r')
          else if Ascii.eqb sg "+" then (false, r') else (false, r)
        | EmptyString => (false, r)
        end in
      let '(e, n, rest) := digits r 0 0 in
      if n =? 0 then None else Some (if neg then - e else e, rest)
    else Some (0, s)
  | EmptyString => Some (0, s)
  end.

Definition parseNumber (s : string) : option (JSValue * string) :=
  let '(neg, s) :=
    match s with
    | String c r => if Ascii.eqb c "-" then (true, r) else (false, s)
    | EmptyString => (false, s)
    end in
  let '(int, n, rest) := digits s 0 0 in
  if (n =? 0) || ((1 <? n) && startsWith s "0") then None
  else
    let frac :=
      match rest with
      | String c r =>
        if Ascii.eqb c "." then
          let '(m, k, rest') := digits r int 0 in
          if k =? 0 then None else Some (m, k, rest')
        else Some (int, 0, rest)
      | EmptyString => Some (int, 0, rest)
      end in
    match frac with
    | None => None
    | Some (m, k, rest) =>
      match parseExponent rest with
      | None => None
      | Some (e, rest) =>
        let x := if m =? 0 then S754_zero neg
                 else Num.ofDecimal (if neg then - m else m) (e - k) in
        Some (JNum x, rest)
      end
    end.

(** The characters of a string literal after its opening quote. *)
Fixpoint parseChars (fuel : nat) (s : string) : option (string * string) :=
  match fuel with
  | O => None
  | S fuel =>
    match s with
    | EmptyString => None
    | String c r =>
      if charCode c =? 34 then Some (EmptyString, r)
      else if charCode c <? 32 then None
      else if charCode c =? 92 then
        match r with
        | String e r' =>
          let simple (ch : Z) :=
            match parseChars fuel r' with
            | Some (str, rest) => Some (String (ascii_of_N (Z.to_N ch)) str, rest)
            | None => None
            end in
          if Ascii.eqb e "u" then
            match r' with
            | String h1 (String h2 (String h3 (String h4 r''))) =>
              match hexDigit h1, hexDigit h2, hexDigit h3, hexDigit h4 with
              | Some 0, Some 0, Some a, Some b =>
                match parseChars fuel r'' with
                | Some (str, rest) =>
                  Some (String (ascii_of_N (Z.to_N (16 * a + b))) str, rest)
                | None => None
                end
              | _, _, _, _ => None
              end
            | _ => None
            end
          else if charCode e =? 34 then simple 34
          else if charCode e =? 92 then simple 92
          else if Ascii.eqb e "/" then simple 47
          else if Ascii.eqb e "b" then simple 8
          else if Ascii.eqb e "f" then simple 12
          else if Ascii.eqb e "n" then simple 10
          else if Ascii.eqb e "r" then simple 13
          else if Ascii.eqb e "t" then simple 9
          else None
        | EmptyString => None
        end
      else
        match parseChars fuel r with
        | Some (str, rest) => Some (String c str, rest)
        | None => None
        end
    end
  end.

(** A later member with the same key replaces the value of the earlier. *)
Fixpoint setField (k : string) (v : JSValue) (fields : list (string * JSValue))
  : list (string * JSValue) :=
  match fields with
  | [] => [(k, v)]
  | (k', v') :: rest =>
    if String.eqb k k' then (k, v) :: rest else (k', v') :: setField k v rest
  end.

Definition dropPrefix (p s : string) : option string :=
  if startsWith s p
  then Some (substring (String.length p) (String.length s - String.length p) s)
  else None.

Fixpoint parseValue (fuel : nat) (s : string) : option (JSValue * string) :=
  match fuel with
  | O => None
  | S fuel =>
    match skipWs s with
    | EmptyString => None
    | String c r as s' =>
      if Ascii.eqb c "{" then
        match skipWs r with
        | String c' r' as body =>
          if Ascii.eqb c' "}" then Some (JObj [], skipWs r')
          else parseMembers fuel body []
        | EmptyString => None
        end
      else if Ascii.eqb c "[" then
        match skipWs r with
        | String c' r' as body =>
          if Ascii.eqb c' "]" then Some (JArr [], skipWs r')
          else parseElements fuel body []
        | EmptyString => None
        end
      else if charCode c =? 34 then
        match parseChars (String.length r) r with
        | Some (str, rest) => Some (JStr str, skipWs rest)
        | None => None
        end
      else
        match dropPrefix "true" s', dropPrefix "false" s', dropPrefix "null" s' with
        | Some rest, _, _ => Some (JBool true, skipWs rest)
        | _, Some rest, _ => Some (JBool false, skipWs rest)
        | _, _, Some rest => Some (JNull, skipWs rest)
        | None, None, None =>
          match parseNumber s' with
          | Some (v, rest) => Some (v, skipWs rest)
          | None => None
          end
        end
    end
  end
with parseElements (fuel : nat) (s : string) (acc : list JSValue)
  : option (JSValue * string) :=
  match fuel with
  | O => None
  | S fuel =>
    match parseValue fuel s with
    | Some (v, String c r) =>
      if Ascii.eqb c "," then parseElements fuel r (acc ++ [v])%list
      else if Ascii.eqb c "]" then Some (JArr (acc ++ [v])%list, skipWs r)
      else None
    | _ => None
    end
  end
with parseMembers (fuel : nat) (s : string) (acc : list (string * JSValue))
  : option (JSValue * string) :=
  match fuel with
  | O => None
  | S fuel =>
    match skipWs s with
    | String q r =>
      if charCode q =? 34 then
        match parseChars (String.length r) r with
        | Some (k, rest) =>
          match skipWs rest with
          | String colon rest' =>
            if Ascii.eqb colon ":" then
              match parseValue fuel rest' with
              | Some (v, String c r') =>
                if Ascii.eqb c "," then parseMembers fuel r' (setField k v acc)
                else if Ascii.eqb c "}" then Some (JObj (setField k v acc), skipWs r')
                else None
              | _ => None
              end
            else None
          | EmptyString => None
          end
        | None => None
        end
      else None
    | EmptyString => None
    end
  end.

Definition parse (text : string) : Result JSValue :=
  match parseValue (2 * String.length text + 2) text with
  | Some (v, EmptyString) => Ok v
  | _ => Err (ErrorObj "Unexpected token in JSON")
  end.

End JSON.

(** Decimal digits of a count, for the reference clock and UUID source. *)
Definition digitChar (n : nat) : ascii := ascii_of_N (48 + N.of_nat (n mod 10)).

Fixpoint decimal (fuel n : nat) : string :=
  match fuel with
  | O => EmptyString
  | S fuel =>
    (if (n <? 10)%nat then EmptyString else decimal fuel (n / 10))
    ++ String (digitChar n) EmptyString
  end.

(** The reference host around a service. *)
Definition referenceHost (service : nat -> string -> string -> Result (option string))
  : Host :=
  {| JSON_parse := JSON.parse;
     generateContent := service;
     now := fun t => "2024-05-01T12:00:00." ++ decimal 20 t ++ "Z";
     randomUUID := fun t => "uuid-" ++ decimal 20 t;
     createObjectURL := fun t f => "blob:" ++ name f;
     getContext2d := fun _ _ => true;
     encodeCanvas := fun f cw ch ty q => "JPEG" ++ rawBase64 f;
     originalHandleResult := true |}.

Definition quote : string := String (ascii_of_N 34) EmptyString.

(** A service that answers every request [{"isAI":true,"score":90}], and
    one that is down for the requests whose payload is the text [BAD]. *)
Definition verdictText : string :=
  "{" ++ quote ++ "isAI" ++ quote ++ ":true," ++ quote ++ "score" ++ quote ++ ":90}".

Definition steadyService (t : nat) (payload mime : string) : Result (option string) :=
  Ok (Some verdictText).

Definition flakyService (t : nat) (payload mime : string) : Result (option string) :=
  if String.eqb payload "BAD" then Err (ErrorObj "503 Service Unavailable")
  else Ok (Some verdictText).

Definition sampleFile (nm ty raw : string) (img : ImageLoad) : File :=
  {| name := nm; type := ty; rawBase64 := raw; readable := true; image := img |}.

(** The spec's wording of the keyword test: [kw] occurs in [text] when
    letter case is ignored. *)
Definition mentions (text kw : string) : Prop :=
  exists pre mid post, text = pre ++ mid ++ post /\ toLowerCase mid = kw.

(** Sample inputs. *)
Definition brokenPng : File := sampleFile "a.png" "image/png" "RAWPNG" Broken.
Definition photo : File := sampleFile "b.jpg" "image/jpeg" "RAWJPG" (Decoded 4000 3000).
Definition clip : File := sampleFile "v.mp4" "video/mp4" "BAD" Broken.

Definition demoHost : Host := referenceHost flakyService.
Definition demoBatch : list File := [brokenPng; clip; photo].

(** The controller after two injections of unparseable text. *)
Definition afterFirstInjection : AppState :=
  handleResult demoHost (JStr "AI generated image") initialState.
Definition afterSecondInjection : AppState :=
  handleResult demoHost (JStr "holiday photo") afterFirstInjection.

(** ** The scan cursor ([App.tsx], the effect on [view]) *)

Definition FORENSIC_STEPS : list string :=
  [ "INITIALIZING NEURAL LAYERS...";
    "EXTRACTING FREQUENCY DOMAIN DATA...";
    "DETECTING GAN NOISE FINGERPRINTS...";
    "COMPARING DIFFUSION SIGNATURES...";
    "ANALYZING BIOMETRIC TOPOLOGY...";
    "VALIDATING PHOTOMETRIC CONSISTENCY...";
    "CHECKING TEMPORAL COHERENCE...";
    "CROSS-REFERENCING C2PA METADATA...";
    "FINALIZING PROBABILISTIC MODEL..." ].

(** [steps[i]] for an integer [i]; [None] is [undefined]. *)
Definition stepAt (steps : list string) (i : Z) : option string :=
  if i <? 0 then None else nth_error steps (Z.to_nat i).

(** The cells [scanStep] and [scanText], the view the effect last ran
    for, and the running interval: the value of [scanStep] that the
    closure of its callback holds. *)
Record ScanCursor : Type := {
  cursorView : ViewState;
  scanStep : Z;
  scanText : option string;
  interval : option Z
}.

(** After the first render: the effect has run for [HOME]. *)
Definition initialCursor : ScanCursor :=
  {| cursorView := HOME; scanStep := 0; scanText := Some EmptyString; interval := None |}.

Definition isScanning (v : ViewState) : bool :=
  match v with SCANNING => true | _ => false end.

Definition sameView (a b : ViewState) : bool :=
  match a, b with
  | HOME, HOME | SCANNING, SCANNING | RESULT, RESULT
  | BATCH_PROCESSING, BATCH_PROCESSING | BATCH_RESULT, BATCH_RESULT
  | DASHBOARD, DASHBOARD | SETTINGS, SETTINGS => true
  | _, _ => false
  end.

(** A render with view [v].  The effect depends on [view] alone: when the
    view is the same nothing happens; otherwise the old interval is
    cleared and the effect body runs with the [scanStep] of this render. *)
Definition cursorRender (v : ViewState) (c : ScanCursor) : ScanCursor :=
  if sameView v (cursorView c) then c
  else if isScanning v then
    {| cursorView := v; scanStep := scanStep c; scanText := scanText c;
       interval := Some (scanStep c) |}
  else
    {| cursorView := v; scanStep := 0; scanText := scanText c; interval := None |}.

(** The interval callback, every 500 ms while an interval runs. *)
Definition cursorTick (c : ScanCursor) : ScanCursor :=
  match interval c with
  | Some held =>
    let n := Z.of_nat (List.length FORENSIC_STEPS) in
    {| cursorView := cursorView c;
       scanStep := Z.rem (scanStep c + 1) n;
       scanText := stepAt FORENSIC_STEPS (Z.rem held n);
       interval := interval c |}
  | None => c
  end.

Inductive CursorEvent : Type :=
| Render (v : ViewState)
| IntervalFires.

Definition cursorStep (c : ScanCursor) (ev : CursorEvent) : ScanCursor :=
  match ev with
  | Render v => cursorRender v c
  | IntervalFires => cursorTick c
  end.

(** What holds of the cursor after every event. *)
Definition cursorInvariant (c : ScanCursor) : Prop :=
  0 <= scanStep c < 9
  /\ (scanText c = Some EmptyString
      \/ scanText c = Some "INITIALIZING NEURAL LAYERS...")
  /\ (if isScanning (cursorView c)
      then interval c = Some 0
      else interval c = None /\ scanStep c = 0).

(** ** Percentages ([Math.round((a / t) * 100)]) *)

(** [Math.round]: the integer nearest to [x], halves rounded up; the
    zeros, the infinities and NaN are kept, and a result of zero keeps
    the sign of [x]. *)
Definition mathRound (x : number) : number :=
  match x with
  | S754_finite s m e =>
    match e with
    | Zneg k =>
      let unit := 2 ^ Zpos k in
      let n := (2 * (if s then - Zpos m else Zpos m) + unit) / (2 * unit) in
      if n =? 0 then S754_zero s else Num.ofZ n
    | _ => x
    end
  | _ => x
  end.

Definition percent (a t : Z) : number :=
  mathRound (Num.mul (Num.div (Num.ofZ a) (Num.ofZ t)) (Num.ofZ 100)).

(** The width of the progress bar and the two numbers of
    "PROCESSING ASSET i OF n" in the batch view. *)
Definition progressWidth (s : AppState) : number :=
  percent (batchProgress s) (batchProgress s + Z.of_nat (List.length (batchQueue s))).

Definition progressLabel (s : AppState) : Z * Z :=
  (batchProgress s + 1, batchProgress s + Z.of_nat (List.length (batchQueue s))).

(** ** Batch report ([BatchResults]) *)

Definition total (results : list BatchAnalysisResult) : Z :=
  Z.of_nat (List.length results).

(** [results.filter(r => r.result.isAI).length] *)
Definition aiCount (results : list BatchAnalysisResult) : Z :=
  Z.of_nat (List.length (filter (fun r => truthy (isAI (result r))) results)).

Definition realCount (results : list BatchAnalysisResult) : Z :=
  total results - aiCount results.

Definition aiPercentage (results : list BatchAnalysisResult) : number :=
  percent (aiCount results) (total results).

(** ** Result view ([ResultView]) *)

Definition isVideoFile (fileData : FileData) : bool :=
  startsWith (mimeType fileData) "video/".

(** [!!result.videoAnalysis] *)
Definition hasVideoAnalysis (r : AnalysisResult) : bool := truthy (videoAnalysis r).

Definition canScrubVideo (fileData : FileData) (r : AnalysisResult) : bool :=
  isVideoFile fileData && hasVideoAnalysis r.

(** The guard of the result view in [App]:
    [view === RESULT && currentResult && currentFile]. *)
Definition resultViewShown (s : AppState) : bool :=
  match view s, currentResult s, currentFile s with
  | RESULT, Some _, Some _ => true
  | _, _, _ => false
  end.

(** ** Dashboard chart *)

Record ChartPoint : Type := {
  pointName : string;
  pointScore : JSValue
}.

Definition natToString (n : nat) : string := decimal (S n) n.

(** [history.map((h, i) => ({ name: `Scan ${i+1}`, score: h.score }))],
    from index [i] on. *)
Fixpoint chartPoints (i : nat) (history : list HistoryItem) : list ChartPoint :=
  match history with
  | [] => []
  | h :: rest =>
    {| pointName := "Scan " ++ natToString (S i); pointScore := score (analysis h) |}
    :: chartPoints (S i) rest
  end.

Definition mockChart : list ChartPoint :=
  [ {| pointName := "A"; pointScore := num 20 |};
    {| pointName := "B"; pointScore := num 45 |};
    {| pointName := "C"; pointScore := num 10 |};
    {| pointName := "D"; pointScore := num 90 |};
    {| pointName := "E"; pointScore := num 85 |};
    {| pointName := "F"; pointScore := num 30 |} ].

Definition chartData (history : list HistoryItem) : list ChartPoint :=
  match history with
  | [] => mockChart
  | _ :: _ => chartPoints 0 history
  end.

(** ** File selection ([Scanner]) *)

(** The cells of [Scanner] and the timers it has set, each holding the
    files it will hand to [onScanStart]. *)
Record ScannerState : Type := {
  isDragging : bool;
  previewFiles : list File;
  timers : list (list File)
}.

(** [handleFiles(fileList)]; [None] is [null]. *)
Definition handleFiles (fileList : option (list File)) (sc : ScannerState)
  : ScannerState :=
  match fileList with
  | None | Some [] => sc
  | Some files =>
    {| isDragging := isDragging sc; previewFiles := files;
       timers := (timers sc ++ [files])%list |}
  end.

(** [onDrop]: the drag highlight goes, then [handleFiles]. *)
Definition onDrop (files : list File) (sc : ScannerState) : ScannerState :=
  handleFiles (Some files)
    {| isDragging := false; previewFiles := previewFiles sc; timers := timers sc |}.

(** The oldest timer fires, 800 ms after it was set: [onScanStart(files)],
    which [App] binds to [handleScanStart]. *)
Definition timerFires (host : Host) (sc : ScannerState) (s : AppState)
  : ScannerState * AppState :=
  match timers sc with
  | [] => (sc, s)
  | files :: rest =>
    ({| isDragging := isDragging sc; previewFiles := previewFiles sc; timers := rest |},
     handleScanStart host files s)
  end.

(** ** What a batch leaves behind, as a specification *)

(** The batch results of the files that pass, in input order, for a
    batch started at count [t]. *)
Fixpoint batchWins (host : Host) (t : nat) (files : list File)
  : list BatchAnalysisResult :=
  match files with
  | [] => []
  | f :: rest =>
    (match scanFile host t f with
     | Ok r => [ {| fileName := name f; result := r;
                    batchThumbnail := createObjectURL host t f |} ]
     | Err _ => []
     end ++ batchWins host (S t) rest)%list
  end.

(** What a history item shares with the batch result it comes from. *)
Definition itemShape (h : HistoryItem) : AnalysisResult * string :=
  (analysis h, thumbnail h).

Definition resultShape (b : BatchAnalysisResult) : AnalysisResult * string :=
  (result b, batchThumbnail b).

(** ** More sample inputs *)

(** A strip of 5000 x 2 pixels, a file that cannot be read, a payload
    with every field set, a batch that the service refuses whole, and the
    report of [demoBatch]. *)
Definition sliver : File := sampleFile "s.png" "image/png" "RAWSLIVER" (Decoded 5000 2).

Definition lostFile : File :=
  {| name := "gone.png"; type := "image/png"; rawBase64 := EmptyString;
     readable := false; image := Broken |}.

Definition completePayload : JSValue :=
  JObj [ ("isAI", JBool true); ("score", num 88); ("verdict", JStr "Synthetic");
         ("reasoning", JStr "GAN noise"); ("technicalDetails", JArr [JStr "grid"]);
         ("modelSignature", JStr "diffusion");
         ("forensicMetrics", JObj [("biometricIntegrity", num 12)]);
         ("humanPerception", JObj [("realnessScore", num 30)]);
         ("suspiciousRegions", JArr [JStr "eyes"]);
         ("watermark", JObj [("detected", JBool false)]);
         ("videoAnalysis", JObj [("frameCount", num 24)]) ].

Definition deadBatch : list File := [clip; clip].


Definition brokenCanvas (f : File) (cw ch : Z) : bool := true.

Definition soundCanvas (f : File) (cw ch : Z) : bool := false.

Definition demoReport : list BatchAnalysisResult := batchWins demoHost 0 demoBatch.

(** * Properties *)

(** ** Strings *)

Lemma startsWith_prefix (p s : string) :
  startsWith s p = true <-> exists post, s = p ++ post.
Proof.
  revert s. induction p as [|a p IH]; intros s.
  - split; [intros _; exists s; reflexivity | destruct s; reflexivity].
  - destruct s as [|b s]; cbn [startsWith append].
    + split; [discriminate | intros [post H]; discriminate].
    + destruct (Ascii.eqb_spec a b) as [->|Hab]; cbn [andb].
      * rewrite IH. split.
        -- intros [post ->]. eauto.
        -- intros [post H]. injection H as ->. eauto.
      * split; [discriminate|]. intros [post H]. injection H as H _. congruence.
Qed.

Lemma includes_infix (s sub : string) :
  includes s sub = true <-> exists pre post, s = pre ++ sub ++ post.
Proof.
  induction s as [|c s IH].
  - cbn [includes]. rewrite orb_false_r, startsWith_prefix. split.
    + intros [post ->]. exists EmptyString, post. reflexivity.
    + intros [[|a pre] [post H]]; [eauto | discriminate].
  - cbn [includes]. rewrite orb_true_iff, startsWith_prefix, IH. split.
    + intros [[post ->] | [pre [post ->]]].
      * exists EmptyString, post. reflexivity.
      * exists (String c pre), post. reflexivity.
    + intros [[|a pre] [post H]].
      * left. eauto.
      * right. injection H as _ ->. eauto.
Qed.

Lemma toLowerCase_app (a b : string) :
  toLowerCase (a ++ b) = toLowerCase a ++ toLowerCase b.
Proof. induction a as [|c a IH]; simpl; [reflexivity | now rewrite IH]. Qed.

Lemma toLowerCase_split (t a b : string) :
  toLowerCase t = a ++ b ->
  exists t1 t2, t = t1 ++ t2 /\ toLowerCase t1 = a /\ toLowerCase t2 = b.
Proof.
  revert t. induction a as [|c a IH]; intros t H.
  - exists EmptyString, t. auto.
  - destruct t as [|d t]; [discriminate|].
    simpl in H. injection H as Hc Ht.
    destruct (IH t Ht) as [t1 [t2 [-> [H1 H2]]]].
    exists (String d t1), t2. simpl. rewrite Hc, H1. auto.
Qed.

(** The test of the source is the spec's "occurs, case ignored". *)
Lemma includes_lower_mentions (text kw : string) :
  includes (toLowerCase text) kw = true <-> mentions text kw.
Proof.
  rewrite includes_infix. unfold mentions. split.
  - intros [pre [post H]].
    destruct (toLowerCase_split _ _ _ H) as [t1 [t2 [-> [_ H2]]]].
    destruct (toLowerCase_split _ _ _ H2) as [t3 [t4 [-> [H3 _]]]].
    eauto.
  - intros [pre [mid [post [-> H]]]].
    exists (toLowerCase pre), (toLowerCase post).
    now rewrite !toLowerCase_app, H.
Qed.

(** ** Doubles

    The arithmetic of [Num] is that of IEEE 754 binary64.  Away from
    underflow and overflow every operation returns one of the two doubles
    next to the exact result; that is all the size computation needs. *)

Lemma digits2_size (p : positive) : digits2_pos p = Pos.size p.
Proof. induction p; simpl; congruence. Qed.

Lemma digits_bounds (p : positive) :
  2 ^ (Zpos (digits2_pos p) - 1) <= Zpos p < 2 ^ Zpos (digits2_pos p).
Proof.
  rewrite digits2_size.
  pose proof (Pos.size_gt p) as Hgt. pose proof (Pos.size_le p) as Hle.
  apply Pos2Z.pos_lt_pos in Hgt. apply Pos2Z.pos_le_pos in Hle.
  rewrite Pos2Z.inj_pow in Hgt, Hle.
  split; [|exact Hgt].
  replace (Zpos (Pos.size p)) with (Zpos (Pos.size p) - 1 + 1) in Hle by lia.
  rewrite Z.pow_add_r, Z.pow_1_r in Hle by lia. lia.
Qed.

Lemma digits_unique (p : positive) (d : Z) :
  2 ^ (d - 1) <= Zpos p < 2 ^ d -> Zpos (digits2_pos p) = d.
Proof.
  intros [Hl Hu]. pose proof (digits_bounds p) as [Hl' Hu'].
  assert (0 < d).
  { destruct (Z_lt_le_dec 0 d); [assumption|].
    assert (2 ^ d <= 2 ^ 0) by (apply Z.pow_le_mono_r; lia). simpl in *. lia. }
  destruct (Z.lt_trichotomy (Zpos (digits2_pos p)) d) as [Hlt|[Heq|Hgt]]; [|exact Heq|].
  - assert (2 ^ Zpos (digits2_pos p) <= 2 ^ (d - 1)) by (apply Z.pow_le_mono_r; lia). lia.
  - assert (2 ^ d <= 2 ^ (Zpos (digits2_pos p) - 1)) by (apply Z.pow_le_mono_r; lia). lia.
Qed.

Lemma shr_1_m (mrs : shr_record) :
  0 <= shr_m mrs -> shr_m (shr_1 mrs) = shr_m mrs / 2.
Proof.
  destruct mrs as [m r s]. simpl. intros Hm.
  destruct m as [|[p|p|]|p]; try reflexivity; try lia; cbn [shr_m].
  - rewrite Pos2Z.inj_xI. apply Z.div_unique with (r := 1); lia.
  - rewrite Pos2Z.inj_xO. apply Z.div_unique with (r := 0); lia.
Qed.

Lemma pow2_xI (p : positive) : 2 ^ Zpos p~1 = 2 * (2 ^ Zpos p * 2 ^ Zpos p).
Proof.
  assert (Zpos p~1 = 1 + Zpos p + Zpos p) as -> by lia.
  rewrite !Z.pow_add_r, Z.pow_1_r by lia. lia.
Qed.

Lemma pow2_xO (p : positive) : 2 ^ Zpos p~0 = 2 ^ Zpos p * 2 ^ Zpos p.
Proof.
  assert (Zpos p~0 = Zpos p + Zpos p) as -> by lia.
  rewrite !Z.pow_add_r by lia. reflexivity.
Qed.

Lemma iter_shr_1_m (p : positive) :
  forall mrs, 0 <= shr_m mrs ->
    shr_m (iter_pos shr_1 p mrs) = shr_m mrs / 2 ^ Zpos p.
Proof.
  induction p as [p IH|p IH|]; intros mrs Hm; cbn [iter_pos].
  - assert (H1 : 0 <= shr_m (shr_1 mrs)) by (rewrite shr_1_m; [apply Z.div_pos|]; lia).
    assert (H2 : 0 <= shr_m (iter_pos shr_1 p (shr_1 mrs)))
      by (rewrite IH; [apply Z.div_pos|]; lia).
    rewrite IH, IH, shr_1_m by assumption.
    rewrite !Z.div_div by lia. now rewrite pow2_xI.
  - assert (H2 : 0 <= shr_m (iter_pos shr_1 p mrs))
      by (rewrite IH; [apply Z.div_pos|]; lia).
    rewrite IH, IH by assumption.
    rewrite !Z.div_div by lia. now rewrite pow2_xO.
  - rewrite shr_1_m by assumption. reflexivity.
Qed.

(** The mantissa and exponent after [shr]. *)
Lemma shr_spec (mrs : shr_record) (e n : Z) :
  0 <= shr_m mrs ->
  shr_m (fst (shr mrs e n)) = shr_m mrs / 2 ^ Z.max 0 n
  /\ snd (shr mrs e n) = e + Z.max 0 n.
Proof.
  intros Hm. destruct n as [|p|p]; simpl.
  - rewrite Z.div_1_r. split; [reflexivity | lia].
  - rewrite iter_shr_1_m by assumption. split; reflexivity.
  - rewrite Z.div_1_r. split; [reflexivity | lia].
Qed.

Lemma round_nearest_even_bounds (m : Z) (l : location) :
  round_nearest_even m l = m \/ round_nearest_even m l = m + 1.
Proof.
  destruct l as [|[| |]]; simpl; auto. destruct (Z.even m); auto.
Qed.

Lemma loc_of_record_of_loc (m : Z) (l : location) :
  loc_of_shr_record (shr_record_of_loc m l) = l.
Proof. destruct l as [|[| |]]; reflexivity. Qed.

Lemma shr_m_record_of_loc (m : Z) (l : location) : shr_m (shr_record_of_loc m l) = m.
Proof. destruct l as [|[| |]]; reflexivity. Qed.

Lemma Zdigits2_pos (p : positive) : Zdigits2 (Zpos p) = Zpos (digits2_pos p).
Proof. reflexivity. Qed.

Lemma fexp_normal (e : Z) : -1074 <= e - 53 -> fexp 53 1024 e = e - 53.
Proof. unfold fexp, emin. lia. Qed.

Lemma shr_no_shift (mrs : shr_record) (e n : Z) : n <= 0 -> shr mrs e n = (mrs, e).
Proof. destruct n; [reflexivity | lia | reflexivity]. Qed.

(** Rounding to 53 bits, away from the subnormal and the overflow range:
    the result is one of the two neighbours of the truncated mantissa. *)
Lemma binary_round_aux_faithful (mx : positive) (ex : Z) (lx : location) :
  let dg := Zpos (digits2_pos mx) in
  let n := Z.max 0 (dg - 53) in
  -1074 <= dg + ex - 53 ->
  ex + n + 1 <= 971 ->
  exists m e c d,
    binary_round_aux 53 1024 false (Zpos mx) ex lx = S754_finite false m e
    /\ (c = 0 \/ c = 1) /\ (d = 0 \/ d = 1)
    /\ e = ex + n + d
    /\ Zpos m * 2 ^ d = Zpos mx / 2 ^ n + c
    /\ Zpos m < 2 ^ 53
    /\ (53 <= dg -> 2 ^ 52 <= Zpos m)
    /\ (dg <= 53 -> lx = loc_Exact -> c = 0 /\ d = 0).
Proof.
  intros dg n Hsub Hovf.
  pose proof (digits_bounds mx) as [Hlo Hhi]. fold dg in Hlo, Hhi.
  assert (Hdg : 0 < dg) by (unfold dg; lia).
  set (q := Zpos mx / 2 ^ n).
  assert (Hn : 0 <= n) by (unfold n; lia).
  assert (Hq : 0 < q < 2 ^ 53 /\ (53 <= dg -> 2 ^ 52 <= q)).
  { unfold q. destruct (Z_le_gt_dec dg 53) as [Hle|Hgt].
    - replace n with 0 by (unfold n; lia). rewrite Z.pow_0_r, Z.div_1_r.
      assert (2 ^ dg <= 2 ^ 53) by (apply Z.pow_le_mono_r; lia).
      split; [lia|]. intros H53. replace dg with 53 in Hlo by lia. exact Hlo.
    - replace n with (dg - 53) by (unfold n; lia).
      assert (Hp : 2 ^ dg = 2 ^ 53 * 2 ^ (dg - 53))
        by (rewrite <- Z.pow_add_r by lia; f_equal; lia).
      assert (Hp' : 2 ^ (dg - 1) = 2 ^ 52 * 2 ^ (dg - 53))
        by (rewrite <- Z.pow_add_r by lia; f_equal; lia).
      assert (0 < 2 ^ (dg - 53)) by (apply Z.pow_pos_nonneg; lia).
      assert (2 ^ 52 <= Zpos mx / 2 ^ (dg - 53))
        by (apply Z.div_le_lower_bound; lia).
      assert (Zpos mx / 2 ^ (dg - 53) < 2 ^ 53)
        by (apply Z.div_lt_upper_bound; lia).
      split; [lia | intros _; assumption]. }
  destruct Hq as [[Hq0 Hq1] Hq2].
  unfold binary_round_aux, shr_fexp.
  rewrite Zdigits2_pos. fold dg.
  rewrite fexp_normal by lia.
  replace (dg + ex - 53 - ex) with (dg - 53) by lia.
  pose proof (shr_spec (shr_record_of_loc (Zpos mx) lx) ex (dg - 53)) as Hs.
  rewrite shr_m_record_of_loc in Hs. specialize (Hs ltac:(lia)).
  fold n in Hs. fold q in Hs.
  destruct (shr (shr_record_of_loc (Zpos mx) lx) ex (dg - 53)) as [mrs' e'] eqn:Eshr.
  cbn [fst snd] in Hs. destruct Hs as [Hm' He'].
  set (m1 := round_nearest_even (shr_m mrs') (loc_of_shr_record mrs')).
  assert (Hm1 : m1 = q \/ m1 = q + 1)
    by (unfold m1; rewrite <- Hm'; apply round_nearest_even_bounds).
  assert (Hexact : dg <= 53 -> lx = loc_Exact -> m1 = q).
  { intros Hle ->. rewrite shr_no_shift in Eshr by lia.
    injection Eshr as <- _. unfold m1. cbn. exact Hm'. }
  destruct m1 as [|p1|p1] eqn:Em1; try lia.
  rewrite Zdigits2_pos.
  pose proof (digits_bounds p1) as [Hlo1 Hhi1].
  set (d1 := Zpos (digits2_pos p1)) in *.
  assert (Hd1 : d1 <= 53 \/ (d1 = 54 /\ Zpos p1 = 2 ^ 53)).
  { destruct (Z_le_gt_dec d1 53) as [Hle|Hgt]; [left; assumption | right].
    assert (2 ^ 53 <= 2 ^ (d1 - 1)) by (apply Z.pow_le_mono_r; lia).
    assert (Zpos p1 = 2 ^ 53) by lia. split; [|assumption].
    destruct (Z_le_gt_dec d1 54); [lia|].
    assert (2 ^ 54 <= 2 ^ (d1 - 1)) by (apply Z.pow_le_mono_r; lia).
    change (2 ^ 54) with (2 * 2 ^ 53) in *. lia. }
  assert (Hd1lo : Z.min dg 53 <= d1).
  { destruct (Z_le_gt_dec (Z.min dg 53) d1) as [|Hgt]; [assumption|].
    assert (2 ^ d1 <= 2 ^ (Z.min dg 53 - 1)) by (apply Z.pow_le_mono_r; lia).
    destruct (Z_le_gt_dec dg 53) as [Hle|Hgt'].
    - replace (Z.min dg 53) with dg in * by lia.
      assert (q = Zpos mx); [|lia].
      unfold q. replace n with 0 by (unfold n; lia).
      now rewrite Z.pow_0_r, Z.div_1_r.
    - replace (Z.min dg 53) with 53 in * by lia.
      specialize (Hq2 ltac:(lia)). change (2 ^ (53 - 1)) with (2 ^ 52) in *. lia. }
  destruct Hd1 as [Hle|[H54 Hp1]].
  - rewrite fexp_normal by (unfold n in *; lia).
    rewrite shr_no_shift by lia. cbn [shr_record_of_loc shr_m].
    replace (e' <=? 1024 - 53) with true by (symmetry; apply Z.leb_le; lia).
    exists p1, e', (Zpos p1 - q), 0.
    split; [reflexivity|]. split; [lia|]. split; [lia|]. split; [lia|].
    split; [rewrite Z.pow_0_r; lia|].
    assert (Hlt : Zpos p1 < 2 ^ 53).
    { assert (2 ^ d1 <= 2 ^ 53) by (apply Z.pow_le_mono_r; lia). lia. }
    split; [exact Hlt|]. split; [lia|].
    intros H1 H2. specialize (Hexact H1 H2). lia.
  - rewrite fexp_normal by (unfold n in *; lia).
    replace (d1 + e' - 53 - e') with 1 by lia.
    cbn [shr shr_record_of_loc iter_pos]. rewrite Hp1.
    change (2 ^ 53) with 9007199254740992. cbn [shr_1 shr_m orb].
    replace (e' + 1 <=? 1024 - 53) with true by (symmetry; apply Z.leb_le; lia).
    exists (4503599627370496)%positive, (e' + 1), 1, 1.
    split; [reflexivity|]. split; [lia|]. split; [lia|]. split; [lia|].
    split; [change (2 ^ 1) with 2; change (2 ^ 53) with 9007199254740992 in *; lia|].
    split; [reflexivity|]. split; [intros _; discriminate|].
    intros H1 H2. specialize (Hexact H1 H2).
    change (2 ^ 53) with 9007199254740992 in *. lia.
Qed.

Lemma digits_upper (p : positive) (k : Z) : Zpos p < 2 ^ k -> Zpos (digits2_pos p) <= k.
Proof.
  intros H. pose proof (digits_bounds p) as [Hlo _].
  destruct (Z_le_gt_dec (Zpos (digits2_pos p)) k) as [|Hgt]; [assumption|].
  assert (2 ^ k <= 2 ^ (Zpos (digits2_pos p) - 1)); [|lia].
  destruct (Z_lt_le_dec k 0) as [Hk|Hk].
  - rewrite (Z.pow_neg_r 2 k Hk) in *. lia.
  - apply Z.pow_le_mono_r; lia.
Qed.

Lemma digits_lower (p : positive) (k : Z) :
  2 ^ k <= Zpos p -> k + 1 <= Zpos (digits2_pos p).
Proof.
  intros H. pose proof (digits_bounds p) as [_ Hhi].
  destruct (Z_le_gt_dec (k + 1) (Zpos (digits2_pos p))) as [|Hgt]; [assumption|].
  assert (2 ^ Zpos (digits2_pos p) <= 2 ^ k) by (apply Z.pow_le_mono_r; lia). lia.
Qed.

Lemma iter_xO (m d : positive) : Zpos (Pos.iter xO m d) = Zpos m * 2 ^ Zpos d.
Proof.
  induction d as [|d IH] using Pos.peano_ind.
  - simpl. lia.
  - rewrite Pos.iter_succ, Pos2Z.inj_xO, IH, Pos2Z.inj_succ, Z.pow_succ_r by lia. lia.
Qed.

(** A positive integer below 2^53 is a double, with the mantissa shifted
    up to 53 bits. *)
Lemma ofZ_exact (z : Z) :
  0 < z < 2 ^ 53 ->
  exists m k,
    Num.ofZ z = S754_finite false m (- k)
    /\ 0 <= k <= 52
    /\ Zpos m = z * 2 ^ k
    /\ 2 ^ 52 <= Zpos m < 2 ^ 53.
Proof.
  intros [Hz0 Hz1]. destruct z as [|p|p]; try lia.
  unfold Num.ofZ, binary_normalize, binary_round.
  pose proof (digits_bounds p) as [Hlo Hhi].
  pose proof (digits_upper p 53 Hz1) as Hdg.
  set (dg := Zpos (digits2_pos p)) in *.
  assert (Hdg0 : 0 < dg) by (unfold dg; lia).
  replace (dg + 0) with dg by lia.
  unfold Num.prec, Num.emax. rewrite fexp_normal by lia.
  set (k := 53 - dg).
  assert (Hk : 2 ^ 52 <= Zpos p * 2 ^ k < 2 ^ 53).
  { assert (H1 : 2 ^ 52 = 2 ^ (dg - 1) * 2 ^ k)
      by (rewrite <- Z.pow_add_r by (unfold k; lia); f_equal; unfold k; lia).
    assert (H2 : 2 ^ 53 = 2 ^ dg * 2 ^ k)
      by (rewrite <- Z.pow_add_r by (unfold k; lia); f_equal; unfold k; lia).
    assert (0 < 2 ^ k) by (apply Z.pow_pos_nonneg; unfold k; lia).
    rewrite H1, H2. split; [apply Z.mul_le_mono_nonneg_r | apply Z.mul_lt_mono_pos_r]; lia. }
  assert (Hal : exists mz, shl_align p 0 (dg - 53) = (mz, - k) /\ Zpos mz = Zpos p * 2 ^ k).
  { unfold shl_align. replace (dg - 53 - 0) with (- k) by (unfold k; lia).
    destruct k as [|kp|kp] eqn:Ek; try lia.
    - exists p. split; [reflexivity | rewrite Z.pow_0_r; lia].
    - cbn [Z.opp]. exists (Pos.iter xO p kp). split; [|apply iter_xO].
      f_equal. unfold k in Ek. lia. }
  destruct Hal as [mz [-> Hmz]].
  assert (Hdz : Zpos (digits2_pos mz) = 53) by (apply digits_unique; rewrite Hmz; exact Hk).
  destruct (binary_round_aux_faithful mz (- k) loc_Exact)
    as [m [e [c [d [Hr [_ [_ [He [Hm [_ [_ Hex]]]]]]]]]]].
  - rewrite Hdz. unfold k. lia.
  - rewrite Hdz. unfold k. lia.
  - rewrite Hdz in *. destruct (Hex ltac:(lia) eq_refl) as [-> ->].
    change (Z.max 0 (53 - 53)) with 0 in *. rewrite Z.pow_0_r, Z.div_1_r in Hm.
    exists m, k. rewrite Hr. replace e with (- k) by lia.
    split; [reflexivity|]. split; [unfold k; lia|].
    split; [lia|]. replace (Zpos m) with (Zpos mz) by lia. rewrite Hmz. exact Hk.
Qed.

(** Division of two normal doubles, away from underflow and overflow:
    the result is a neighbour of the truncated quotient. *)
Lemma div_faithful (mx my : positive) (ex ey : Z) :
  2 ^ 52 <= Zpos mx < 2 ^ 53 ->
  2 ^ 52 <= Zpos my < 2 ^ 53 ->
  -1000 <= ex - ey <= 900 ->
  exists m e n c d q,
    Num.div (S754_finite false mx ex) (S754_finite false my ey) = S754_finite false m e
    /\ 0 <= n <= 1 /\ (c = 0 \/ c = 1) /\ (d = 0 \/ d = 1)
    /\ e = ex - ey - 53 + n + d
    /\ Zpos m * 2 ^ d = q + c
    /\ q * 2 ^ n * Zpos my <= Zpos mx * 2 ^ 53 < (q + 1) * 2 ^ n * Zpos my
    /\ 2 ^ 52 <= Zpos m < 2 ^ 53.
Proof.
  intros Hx Hy He.
  assert (Hdx : Zpos (digits2_pos mx) = 53) by (now apply digits_unique).
  assert (Hdy : Zpos (digits2_pos my) = 53) by (now apply digits_unique).
  unfold Num.div, SFdiv, SFdiv_core_binary, Num.prec, Num.emax.
  rewrite !Zdigits2_pos, Hdx, Hdy.
  replace (53 + ex - (53 + ey)) with (ex - ey) by lia.
  rewrite fexp_normal by lia.
  replace (Z.min (ex - ey - 53) (ex - ey)) with (ex - ey - 53) by lia.
  replace (ex - ey - (ex - ey - 53)) with 53 by lia.
  rewrite Z.shiftl_mul_pow2 by lia.
  pose proof (Z_div_mod (Zpos mx * 2 ^ 53) (Zpos my) ltac:(lia)) as Hdm.
  destruct (Z.div_eucl (Zpos mx * 2 ^ 53) (Zpos my)) as [q r].
  destruct Hdm as [Hqr Hr].
  assert (Hq : 2 ^ 52 <= q < 2 ^ 54).
  { change (2 ^ 54) with (2 * 2 ^ 53). change (2 ^ 53) with (2 * 2 ^ 52) in *. nia. }
  destruct q as [|pq|pq]; try lia.
  pose proof (digits_lower pq 52 ltac:(lia)) as Hd1.
  pose proof (digits_upper pq 54 ltac:(lia)) as Hd2.
  destruct (binary_round_aux_faithful pq (ex - ey - 53) (new_location (Zpos my) r))
    as [m [e [c [d [Hres [Hc [Hd [Hee [Hm [Hm53 [Hm52 _]]]]]]]]]]].
  - lia.
  - lia.
  - set (n := Z.max 0 (Zpos (digits2_pos pq) - 53)) in *.
    exists m, e, n, c, d, (Zpos pq / 2 ^ n).
    cbn [xorb]. rewrite Hres.
    split; [reflexivity|]. split; [unfold n; lia|].
    split; [assumption|]. split; [assumption|]. split; [lia|]. split; [assumption|].
    split; [|split; [apply Hm52; lia | assumption]].
    assert (Hn : n = 0 \/ n = 1) by (unfold n; lia).
    pose proof (Z_div_mod (Zpos pq) (2 ^ n) ltac:(destruct Hn as [-> | ->]; reflexivity))
      as Hdm2.
    unfold Z.div. destruct (Z.div_eucl (Zpos pq) (2 ^ n)) as [q' r'].
    destruct Hdm2 as [Hq' Hr'].
    destruct Hn as [-> | ->]; change (2 ^ 0) with 1 in *; change (2 ^ 1) with 2 in *; nia.
Qed.

(** Multiplication of two normal doubles, away from underflow and
    overflow: the result is a neighbour of the truncated product. *)
Lemma mul_faithful (mx my : positive) (ex ey : Z) :
  2 ^ 52 <= Zpos mx < 2 ^ 53 ->
  2 ^ 52 <= Zpos my < 2 ^ 53 ->
  -1000 <= ex + ey <= 900 ->
  exists m e n c d q,
    Num.mul (S754_finite false mx ex) (S754_finite false my ey) = S754_finite false m e
    /\ 52 <= n <= 53 /\ (c = 0 \/ c = 1) /\ (d = 0 \/ d = 1)
    /\ e = ex + ey + n + d
    /\ Zpos m * 2 ^ d = q + c
    /\ q * 2 ^ n <= Zpos mx * Zpos my < (q + 1) * 2 ^ n
    /\ 2 ^ 52 <= Zpos m < 2 ^ 53.
Proof.
  intros Hx Hy He.
  unfold Num.mul, SFmul, Num.prec, Num.emax. cbn [xorb].
  assert (HM : 2 ^ 104 <= Zpos (mx * my) < 2 ^ 106).
  { rewrite Pos2Z.inj_mul. change (2 ^ 104) with (2 ^ 52 * 2 ^ 52).
    change (2 ^ 106) with (2 ^ 53 * 2 ^ 53). nia. }
  pose proof (digits_lower (mx * my) 104 ltac:(lia)) as Hd1.
  pose proof (digits_upper (mx * my) 106 ltac:(lia)) as Hd2.
  destruct (binary_round_aux_faithful (mx * my) (ex + ey) loc_Exact)
    as [m [e [c [d [Hres [Hc [Hd [Hee [Hm [Hm53 [Hm52 _]]]]]]]]]]].
  - lia.
  - lia.
  - set (n := Z.max 0 (Zpos (digits2_pos (mx * my)) - 53)) in *.
    exists m, e, n, c, d, (Zpos (mx * my) / 2 ^ n).
    rewrite Hres.
    split; [reflexivity|]. split; [unfold n; lia|].
    split; [assumption|]. split; [assumption|]. split; [lia|]. split; [assumption|].
    split; [|split; [apply Hm52; lia | assumption]].
    rewrite <- Pos2Z.inj_mul.
    assert (0 < 2 ^ n) by (apply Z.pow_pos_nonneg; unfold n; lia).
    pose proof (Z_div_mod (Zpos (mx * my)) (2 ^ n) ltac:(lia)) as Hdm2.
    unfold Z.div. destruct (Z.div_eucl (Zpos (mx * my)) (2 ^ n)) as [q' r'].
    destruct Hdm2 as [Hq' Hr']. nia.
Qed.

(** ** The scaled side of the canvas *)

(** The last step: a value within less than one unit of [1024 h / w],
    scaled by [Y], has its integer part next to the exact quotient. *)
Lemma floor_near_quotient (w h d X Y E : Z) :
  0 < w -> 0 < Y -> 0 <= E < Y ->
  d * Y <= X < (d + 1) * Y ->
  1024 * h * Y - E < w * X <= 1024 * h * Y + E ->
  d * w <= 1024 * h <= (d + 1) * w.
Proof.
  intros Hw HY HE HX HwX.
  assert (H1 : w * (d * Y) <= w * X) by (apply Z.mul_le_mono_nonneg_l; lia).
  assert (H2 : w * X < w * ((d + 1) * Y)) by (apply Z.mul_lt_mono_pos_l; lia).
  split.
  - assert (d * w * Y < (1024 * h + 1) * Y) by lia.
    assert (d * w < 1024 * h + 1) by (apply Z.mul_lt_mono_pos_r with Y; lia). lia.
  - assert ((1024 * h - 1) * Y < (d + 1) * w * Y) by lia.
    assert (1024 * h - 1 < (d + 1) * w) by (apply Z.mul_lt_mono_pos_r with Y; lia). lia.
Qed.

(** The two roundings in integers.  [my = w * A] and [mh = h * B] are the
    53-bit mantissas of the sides, [mq] that of the rounded quotient
    [1024 / w] ([q1] truncated by [N1], then rounded by [c1], carry [D1]),
    [mr] that of the rounded product ([q2], [N2], [c2], [D2]), and [d] is
    the integer part of the product, whose unit is [K] in the last place. *)
Lemma scaling_error (w h A B N1 D1 N2 D2 K my mh mq mr q1 c1 q2 c2 d : Z) :
  1024 < w < 2 ^ 32 -> 0 < h <= w ->
  0 < A -> my = w * A -> 2 ^ 52 <= my < 2 ^ 53 ->
  0 < B -> mh = h * B -> 2 ^ 52 <= mh < 2 ^ 53 ->
  1 <= N1 <= 2 -> 1 <= D1 <= 2 -> 1 <= N2 <= 2 ^ 53 -> 1 <= D2 <= 2 ->
  0 <= c1 <= 1 -> 0 <= c2 <= 1 ->
  mq * D1 = q1 + c1 ->
  q1 * N1 * my <= 2 ^ 105 < (q1 + 1) * N1 * my ->
  mr * D2 = q2 + c2 ->
  q2 * N2 <= mh * mq < (q2 + 1) * N2 ->
  0 < K -> K * (A * N1 * D1 * N2 * D2) = B * 2 ^ 95 ->
  d * K <= mr < (d + 1) * K ->
  d * w <= 1024 * h <= (d + 1) * w.
Proof.
  intros Hw Hh HA Hmy Hmy' HB Hmh Hmh' HN1 HD1 HN2 HD2 Hc1 Hc2 Hq1 Hq1' Hq2 Hq2' HK HKV Hd.
  set (U := D1 * N1 * A).
  set (V := U * N2 * D2).
  set (Y := B * 2 ^ 95).
  set (X := mr * V).
  assert (HU : 0 < U) by (unfold U; repeat apply Z.mul_pos_pos; lia).
  assert (HV : 0 < V) by (unfold V; repeat apply Z.mul_pos_pos; lia).
  assert (HKY : K * V = Y) by (unfold V, U, Y; lia).
  assert (HY : 0 < Y) by (unfold Y; lia).
  (* the integer part, scaled *)
  assert (S1 : d * Y <= X < (d + 1) * Y).
  { unfold X. rewrite <- HKY. split.
    - replace (d * (K * V)) with (d * K * V) by ring.
      apply Z.mul_le_mono_nonneg_r; lia.
    - replace ((d + 1) * (K * V)) with ((d + 1) * K * V) by ring.
      apply Z.mul_lt_mono_pos_r; lia. }
  (* the product rounding *)
  set (NU := N2 * U).
  assert (HNU : 0 < NU) by (unfold NU; apply Z.mul_pos_pos; lia).
  assert (S2 : X = (q2 + c2) * NU) by (unfold X, V, NU; rewrite <- Hq2; ring).
  assert (S3 : mh * mq * U - NU < X <= mh * mq * U + NU).
  { rewrite S2. unfold NU.
    assert (mh * mq - N2 < (q2 + c2) * N2 <= mh * mq + N2) by nia.
    replace ((q2 + c2) * (N2 * U)) with ((q2 + c2) * N2 * U) by ring.
    split.
    - replace (mh * mq * U - N2 * U) with ((mh * mq - N2) * U) by ring.
      apply Z.mul_lt_mono_pos_r; lia.
    - replace (mh * mq * U + N2 * U) with ((mh * mq + N2) * U) by ring.
      apply Z.mul_le_mono_nonneg_r; lia. }
  (* the quotient rounding *)
  set (G := (q1 + c1) * N1 * my).
  set (T := N1 * my).
  assert (HT : 0 < T <= 2 ^ 54).
  { unfold T. change (2 ^ 54) with (2 * 2 ^ 53).
    split; [apply Z.mul_pos_pos | apply Z.mul_le_mono_nonneg]; lia. }
  assert (S5 : 2 ^ 105 - T < G <= 2 ^ 105 + T).
  { assert (Hq1T : q1 * T <= 2 ^ 105 < q1 * T + T) by (unfold T; lia).
    assert (HG : G = q1 * T + c1 * T) by (unfold G, T; ring).
    assert (Hc : c1 = 0 \/ c1 = 1) by lia.
    destruct Hc as [-> | ->]; lia. }
  assert (S4 : w * (mh * mq * U) = h * B * G).
  { unfold U, G. rewrite Hmh, Hmy.
    replace (w * (h * B * mq * (D1 * N1 * A))) with (h * B * (mq * D1) * N1 * (w * A)) by ring.
    rewrite Hq1. ring. }
  set (hB := h * B) in *.
  assert (HhB : 0 < hB) by (unfold hB; apply Z.mul_pos_pos; lia).
  assert (S6 : hB * 2 ^ 105 - hB * T < w * (mh * mq * U) <= hB * 2 ^ 105 + hB * T).
  { rewrite S4. split.
    - replace (hB * 2 ^ 105 - hB * T) with (hB * (2 ^ 105 - T)) by ring.
      apply Z.mul_lt_mono_pos_l; lia.
    - replace (hB * 2 ^ 105 + hB * T) with (hB * (2 ^ 105 + T)) by ring.
      apply Z.mul_le_mono_nonneg_l; lia. }
  (* together *)
  set (E := hB * T + w * NU).
  assert (S7 : 1024 * h * Y - E < w * X <= 1024 * h * Y + E).
  { assert (1024 * h * Y = hB * 2 ^ 105) by (unfold Y, hB; change (2 ^ 105) with (1024 * 2 ^ 95); ring).
    assert (w * (mh * mq * U) - w * NU < w * X <= w * (mh * mq * U) + w * NU).
    { split.
      - replace (w * (mh * mq * U) - w * NU) with (w * (mh * mq * U - NU)) by ring.
        apply Z.mul_lt_mono_pos_l; lia.
      - replace (w * (mh * mq * U) + w * NU) with (w * (mh * mq * U + NU)) by ring.
        apply Z.mul_le_mono_nonneg_l; lia. }
    unfold E. lia. }
  assert (S8 : 0 <= E < Y).
  { unfold E.
    assert (0 <= hB * T) by (apply Z.mul_nonneg_nonneg; lia).
    assert (0 <= w * NU) by (apply Z.mul_nonneg_nonneg; lia).
    split; [lia|].
    assert (HwNU : w * NU = N2 * D1 * N1 * my) by (unfold NU, U; rewrite Hmy; ring).
    assert (w * NU <= 2 ^ 108).
    { rewrite HwNU. change (2 ^ 108) with (2 ^ 53 * 2 * 2 * 2 ^ 53).
      assert (0 <= N2 * D1 <= 2 ^ 53 * 2)
        by (split; [apply Z.mul_nonneg_nonneg | apply Z.mul_le_mono_nonneg]; lia).
      assert (0 <= N2 * D1 * N1 <= 2 ^ 53 * 2 * 2)
        by (split; [apply Z.mul_nonneg_nonneg | apply Z.mul_le_mono_nonneg]; lia).
      apply Z.mul_le_mono_nonneg; lia. }
    assert (hB * T <= 2 ^ 53 * 2 ^ 54)
      by (replace hB with mh by lia; apply Z.mul_le_mono_nonneg; lia).
    assert (2 ^ 20 < B).
    { destruct (Z_lt_le_dec (2 ^ 20) B); [assumption|].
      assert (h * B <= (2 ^ 32 - 1) * 2 ^ 20) by (apply Z.mul_le_mono_nonneg; lia).
      change ((2 ^ 32 - 1) * 2 ^ 20) with (2 ^ 52 - 2 ^ 20) in *. lia. }
    unfold Y. change (2 ^ 53 * 2 ^ 54) with (2 ^ 107) in *.
    assert (2 ^ 20 * 2 ^ 95 < B * 2 ^ 95) by (apply Z.mul_lt_mono_pos_r; lia).
    change (2 ^ 20 * 2 ^ 95) with (2 ^ 115) in *. lia. }
  apply (floor_near_quotient w h d X Y E); lia.
Qed.

Lemma pow2_pos (k : Z) : 0 <= k -> 0 < 2 ^ k.
Proof. intros. apply Z.pow_pos_nonneg; lia. Qed.

Lemma pow2_bit (k : Z) : 0 <= k <= 1 -> 1 <= 2 ^ k <= 2.
Proof.
  intros H. assert (Hk : k = 0 \/ k = 1) by lia.
  destruct Hk as [-> | ->]; simpl; lia.
Qed.

(** The scaled side, as the canvas gets it: the double
    [side * (1024 / other)] converted to [unsigned long] is the exact
    quotient [1024 * side / other] rounded down, or one less than it when
    the quotient is an integer. *)
Lemma scaled_side (side other : Z) :
  1024 < other < 2 ^ 32 ->
  0 <= side <= other ->
  let d := Num.toUint32
             (Num.mul (Num.ofZ side) (Num.div (Num.ofZ 1024) (Num.ofZ other))) in
  0 <= d <= 1024 /\ d * other <= 1024 * side <= (d + 1) * other.
Proof.
  intros Hw Hh.
  assert (H53 : (2 : Z) ^ 32 < 2 ^ 53) by reflexivity.
  destruct (ofZ_exact other ltac:(lia)) as [my [a [Ey [Ha [Hmy Hmy']]]]].
  assert (Ex : Num.ofZ 1024 = S754_finite false 4503599627370496 (-42)) by reflexivity.
  rewrite Ex, Ey.
  destruct (div_faithful 4503599627370496 my (-42) (- a)
              ltac:(split; [discriminate | reflexivity]) Hmy' ltac:(lia))
    as [mq [eq [n1 [c1 [d1 [q1 [Eq [Hn1 [Hc1 [Hd1 [Heq [Hmq [Hq1 Hmq']]]]]]]]]]]]].
  rewrite Eq.
  destruct (Z.eq_dec side 0) as [-> | Hne].
  { cbv zeta. change (Num.ofZ 0) with (S754_zero false).
    change (Num.toUint32 (Num.mul (S754_zero false) (S754_finite false mq eq))) with 0.
    lia. }
  destruct (ofZ_exact side ltac:(lia)) as [mh [b [Eh [Hb [Hmh Hmh']]]]].
  rewrite Eh.
  destruct (mul_faithful mh mq (- b) eq Hmh' Hmq' ltac:(lia))
    as [mr [er [n2 [c2 [d2 [q2 [Er [Hn2 [Hc2 [Hd2 [Her [Hmr [Hq2 Hmr']]]]]]]]]]]]].
  rewrite Er. cbv zeta.
  (* the exponents *)
  assert (Ha42 : a <= 42).
  { destruct (Z_le_gt_dec a 42); [assumption|].
    assert (2 ^ 43 <= 2 ^ a) by (apply Z.pow_le_mono_r; lia).
    assert (1024 * 2 ^ 43 < other * 2 ^ a)
      by (apply Z.mul_lt_mono_nonneg; lia).
    change (1024 * 2 ^ 43) with (2 ^ 53) in *. lia. }
  assert (Hb21 : 21 <= b).
  { destruct (Z_le_gt_dec 21 b); [assumption|].
    assert (2 ^ b <= 2 ^ 20) by (apply Z.pow_le_mono_r; lia).
    assert (0 < 2 ^ b) by (apply pow2_pos; lia).
    assert (side * 2 ^ b <= (2 ^ 32 - 1) * 2 ^ 20)
      by (apply Z.mul_le_mono_nonneg; lia).
    change ((2 ^ 32 - 1) * 2 ^ 20) with (2 ^ 52 - 2 ^ 20) in *. lia. }
  assert (Hd1' : 0 <= d1 <= 1) by lia.
  assert (Hd2' : 0 <= d2 <= 1) by lia.
  assert (Hneg : er < 0) by lia.
  set (k := - er).
  assert (Hk : 0 < k) by (unfold k; lia).
  (* the integer part *)
  assert (Htr : Num.trunc (S754_finite false mr er) = Zpos mr / 2 ^ k).
  { unfold Num.trunc. destruct er as [|pe|pe]; try lia.
    rewrite Z.shiftr_div_pow2 by lia. reflexivity. }
  set (d := Zpos mr / 2 ^ k) in *.
  assert (HK : 0 < 2 ^ k) by (apply pow2_pos; lia).
  assert (Hdk : d * 2 ^ k <= Zpos mr < (d + 1) * 2 ^ k).
  { pose proof (Z_div_mod (Zpos mr) (2 ^ k) ltac:(lia)) as Hdm.
    unfold d, Z.div. destruct (Z.div_eucl (Zpos mr) (2 ^ k)) as [q r]. lia. }
  assert (Hd0 : 0 <= d) by (apply Z.div_pos; lia).
  (* the bound *)
  assert (PA : 0 < 2 ^ a) by (apply pow2_pos; lia).
  assert (PB : 0 < 2 ^ b) by (apply pow2_pos; lia).
  assert (PN1 : 1 <= 2 ^ n1 <= 2) by (apply pow2_bit; lia).
  assert (PD1 : 1 <= 2 ^ d1 <= 2) by (apply pow2_bit; lia).
  assert (PD2 : 1 <= 2 ^ d2 <= 2) by (apply pow2_bit; lia).
  assert (PN2 : 1 <= 2 ^ n2 <= 2 ^ 53).
  { split; [assert (0 < 2 ^ n2) by (apply pow2_pos; lia); lia
           | apply Z.pow_le_mono_r; lia]. }
  assert (PQ : q1 * 2 ^ n1 * Zpos my <= 2 ^ 105 < (q1 + 1) * 2 ^ n1 * Zpos my)
    by (change (2 ^ 105) with (4503599627370496 * 2 ^ 53); exact Hq1).
  assert (PK : 2 ^ k * (2 ^ a * 2 ^ n1 * 2 ^ d1 * 2 ^ n2 * 2 ^ d2) = 2 ^ b * 2 ^ 95)
    by (rewrite <- !Z.pow_add_r by lia; f_equal; unfold k; lia).
  assert (Hc1' : 0 <= c1 <= 1) by lia.
  assert (Hc2' : 0 <= c2 <= 1) by lia.
  assert (Hside : 0 < side <= other) by lia.
  assert (Hmain : d * other <= 1024 * side <= (d + 1) * other).
  { apply (scaling_error other side (2 ^ a) (2 ^ b) (2 ^ n1) (2 ^ d1) (2 ^ n2) (2 ^ d2)
             (2 ^ k) (Zpos my) (Zpos mh) (Zpos mq) (Zpos mr) q1 c1 q2 c2 d);
      assumption. }
  unfold Num.toUint32. rewrite Htr.
  assert (Hd1024 : d <= 1024).
  { destruct (Z_le_gt_dec d 1024); [assumption|].
    assert (1025 * other <= d * other) by (apply Z.mul_le_mono_nonneg_r; lia). lia. }
  rewrite Z.mod_small by (change (2 ^ 32) with 4294967296; lia).
  split; [lia | exact Hmain].
Qed.

Section Controller.

Variable host : Host.

(** ** Projections through the outcome of one scan *)

Lemma scanFile_unfold (t : nat) (f : File) :
  scanFile host t f =
  match fileToBase64 host f with
  | Ok base64 => analyzeContent host t base64 (effectiveMimeType f)
  | Err e => Err e
  end.
Proof. reflexivity. Qed.

(** The history after a single-file scan, by its outcome. *)
Lemma single_scan_history (f : File) (s : AppState) :
  history (handleScanStart host [f] s) =
  match scanFile host (tick s) f with
  | Ok r => historyItem host (tick s) r (createObjectURL host (tick s) f) :: history s
  | Err _ => history s
  end.
Proof.
  rewrite scanFile_unfold. unfold handleScanStart; simpl.
  destruct (fileToBase64 host f) as [b|e]; simpl; [|reflexivity].
  destruct (analyzeContent host (tick s) b (effectiveMimeType f)); reflexivity.
Qed.

(** The history after one run of the queue effect. *)
Lemma queue_step_history (s : AppState) :
  history (processQueue host s) =
  match view s, batchQueue s with
  | BATCH_PROCESSING, f :: _ =>
    match scanFile host (tick s) f with
    | Ok r => historyItem host (tick s) r (createObjectURL host (tick s) f) :: history s
    | Err _ => history s
    end
  | _, _ => history s
  end.
Proof.
  unfold processQueue.
  destruct (view s); try reflexivity.
  destruct (batchQueue s) as [|f rest]; [reflexivity|].
  rewrite scanFile_unfold.
  destruct (fileToBase64 host f) as [b|e]; simpl.
  - destruct (analyzeContent host (tick s) b (effectiveMimeType f));
      destruct rest; reflexivity.
  - destruct rest; reflexivity.
Qed.

(** The history after a bridge injection. *)
Lemma bridge_history (v : JSValue) (s : AppState) :
  history (handleResult host v s) =
  match mapResult (parsePayload host v) (now host (tick s)) with
  | Ok r => historyItem host (tick s) r EmptyString :: history s
  | Err _ => history s
  end.
Proof.
  unfold handleResult.
  destruct (originalHandleResult host); simpl;
    destruct (mapResult (parsePayload host v) (now host (tick s)));
    simpl; try reflexivity; destruct (currentFile s); reflexivity.
Qed.

Lemma step_history (s : AppState) (ev : Event) :
  if completes host s ev
  then exists item, history (step host s ev) = item :: history s
  else history (step host s ev) = history s.
Proof.
  destruct ev as [files| |v| |v]; unfold step, completes.
  - destruct files as [|f [|g rest]]; try reflexivity.
    rewrite single_scan_history.
    destruct (scanFile host (tick s) f); simpl; eauto.
  - rewrite queue_step_history.
    destruct (view s); try reflexivity.
    destruct (batchQueue s) as [|f rest]; [reflexivity|].
    destruct (scanFile host (tick s) f); simpl; eauto.
  - rewrite bridge_history.
    destruct (mapResult (parsePayload host v) (now host (tick s))); simpl; eauto.
  - reflexivity.
  - reflexivity.
Qed.

Lemma step_history_length (s : AppState) (ev : Event) :
  List.length (history (step host s ev)) =
  (List.length (history s) + (if completes host s ev then 1 else 0))%nat.
Proof.
  pose proof (step_history s ev) as H.
  destruct (completes host s ev).
  - destruct H as [item ->]. simpl. lia.
  - rewrite H. lia.
Qed.

Lemma run_history_monotone (evs : list Event) :
  forall s, (List.length (history s) <= List.length (history (run host s evs)))%nat.
Proof.
  unfold run.
  induction evs as [|ev evs IH]; intros s; cbn [fold_left].
  - lia.
  - specialize (IH (step host s ev)).
    rewrite step_history_length in IH. lia.
Qed.

(** ** C7: routing of a file selection *)

(** C7. Selecting one file enters the single-scan path: at the first
    [await] the view is Scanning and the status Analyzing.  Selecting two
    or more files enters the batch path: view BatchProcessing, status
    Analyzing, the queue is the whole selection.  Selecting no file
    changes nothing. *)
Theorem file_selection_routes (s : AppState) (f f1 f2 : File) (rest : list File) :
  (view (handleScanStart_enter [f] s) = SCANNING
   /\ status (handleScanStart_enter [f] s) = ANALYZING
   /\ handleScanStart host [f] s
      = handleScanStart_settle host [f] (handleScanStart_enter [f] s))
  /\ (view (handleScanStart host (f1 :: f2 :: rest) s) = BATCH_PROCESSING
      /\ status (handleScanStart host (f1 :: f2 :: rest) s) = ANALYZING
      /\ batchQueue (handleScanStart host (f1 :: f2 :: rest) s) = f1 :: f2 :: rest)
  /\ (handleScanStart_enter [] s = s /\ handleScanStart host [] s = s).
Proof. repeat split. Qed.

(** ** C8: a failed single scan *)

(** C8. When the preprocessing or the analysis call of a single scan
    fails with [e], exactly one alert is shown, the view is Home, the
    status Error, the scan sets no current result (the cell keeps its
    value) and the history is as before. *)
Theorem single_scan_failure (s : AppState) (f : File) (e : JSError) :
  scanFile host (tick s) f = Err e ->
  let s' := handleScanStart host [f] s in
  alerts s' = (alerts s ++ [alertText e])%list
  /\ view s' = HOME
  /\ status s' = ERROR
  /\ currentResult s' = currentResult s
  /\ history s' = history s.
Proof.
  rewrite scanFile_unfold. unfold handleScanStart; simpl.
  destruct (fileToBase64 host f) as [b|e0]; simpl.
  - intros H; rewrite H; simpl. repeat split.
  - intros H; injection H as ->. repeat split.
Qed.

(** ** C9: the history only grows *)

(** C9. Over any sequence of events the history never gets shorter; an
    event that completes an analysis (single scan, batch item or bridge
    injection) puts exactly one item in front of it and every other
    event leaves it alone; the reset clears the current file, the current
    result, the batch queue and the batch results, sets status Idle and
    view Home, and keeps the history. *)
Theorem history_never_shrinks (s : AppState) :
  (forall evs, (List.length (history s) <= List.length (history (run host s evs)))%nat)
  /\ (forall ev,
        (if completes host s ev
         then exists item, history (step host s ev) = item :: history s
         else history (step host s ev) = history s)
        /\ List.length (history (step host s ev)) =
           (List.length (history s) + (if completes host s ev then 1 else 0))%nat)
  /\ (currentFile (resetScanner s) = None
      /\ currentResult (resetScanner s) = None
      /\ batchQueue (resetScanner s) = []
      /\ batchResults (resetScanner s) = []
      /\ status (resetScanner s) = IDLE
      /\ view (resetScanner s) = HOME
      /\ history (resetScanner s) = history s).
Proof.
  split; [|split].
  - intros evs. apply run_history_monotone.
  - intros ev. split; [apply step_history | apply step_history_length].
  - repeat split.
Qed.

(** ** C4: where a new history item goes *)


(** ** The bridge adapter *)

(** What an injection leaves in the controller when the mapping did
    not throw. *)
Lemma bridge_result (v : JSValue) (s : AppState) (r : AnalysisResult) :
  mapResult (parsePayload host v) (now host (tick s)) = Ok r ->
  let s' := handleResult host v s in
  currentResult s' = Some r
  /\ view s' = RESULT
  /\ status s' = COMPLETE
  /\ history s' = historyItem host (tick s) r EmptyString :: history s.
Proof.
  intros H. unfold handleResult.
  destruct (originalHandleResult host); simpl; rewrite H;
    destruct (currentFile s); simpl; repeat split.
Qed.

(** C5. When the injected string does not parse as JSON, the result is
    the keyword heuristic: if the string mentions "ai" or "synthetic",
    letter case ignored, it is classified synthetic with score 95,
    otherwise authentic with score 5. *)
Theorem unparseable_string_heuristic (text : string) (e : JSError) (s : AppState) :
  JSON_parse host text = Err e ->
  exists r,
    currentResult (handleResult host (JStr text) s) = Some r
    /\ history (handleResult host (JStr text) s)
       = historyItem host (tick s) r EmptyString :: history s
    /\ (mentions text "ai" \/ mentions text "synthetic" ->
        isAI r = JBool true /\ score r = num 95
        /\ verdict r = JStr "SYNTHETIC DETECTED")
    /\ (~ (mentions text "ai" \/ mentions text "synthetic") ->
        isAI r = JBool false /\ score r = num 5
        /\ verdict r = JStr "AUTHENTIC MEDIA").
Proof.
  intros Hparse.
  assert (Hp : parsePayload host (JStr text) = keywordVerdict text)
    by (simpl; now rewrite Hparse).
  assert (Hm : mentions text "ai" \/ mentions text "synthetic"
               <-> includes (toLowerCase text) "ai"
                   || includes (toLowerCase text) "synthetic" = true)
    by (now rewrite orb_true_iff, !includes_lower_mentions).
  unfold keywordVerdict in Hp.
  destruct (includes (toLowerCase text) "ai"
            || includes (toLowerCase text) "synthetic") eqn:Hk.
  - eexists.
    destruct (bridge_result (JStr text) s _
                ltac:(rewrite Hp; reflexivity)) as [H1 [_ [_ H2]]].
    split; [exact H1|]. split; [exact H2|].
    split; [intros _; repeat split | intros H; elim H; now apply Hm].
  - eexists.
    destruct (bridge_result (JStr text) s _
                ltac:(rewrite Hp; reflexivity)) as [H1 [_ [_ H2]]].
    split; [exact H1|]. split; [exact H2|].
    split; [intros H; apply Hm in H; discriminate | intros _; repeat split].
Qed.

(** A payload that is neither [undefined] nor [null] is mapped. *)
Lemma mapResult_total (payload : JSValue) (ts : string) :
  nullish payload = false ->
  exists r, mapResult payload ts = Ok r
    /\ isAI r = or_else (spreadProp payload "isAI") (JBool false)
    /\ score r = (if isNumber (spreadProp payload "score")
                  then spreadProp payload "score"
                  else if truthy (spreadProp payload "isAI") then num 98 else num 2)
    /\ verdict r = or_else (spreadProp payload "verdict")
                     (if truthy (spreadProp payload "isAI")
                      then JStr "SYNTHETIC DETECTED" else JStr "AUTHENTIC")
    /\ technicalDetails r = or_else (spreadProp payload "technicalDetails")
                              (JArr [ JStr "External verification complete";
                                      JStr "Bridge data integrity: OK" ])
    /\ forensicMetrics r = or_else (spreadProp payload "forensicMetrics")
                             defaultForensicMetrics
    /\ humanPerception r = or_else (spreadProp payload "humanPerception")
                             defaultHumanPerception
    /\ suspiciousRegions r = or_else (spreadProp payload "suspiciousRegions") (JArr [])
    /\ watermark r = or_else (spreadProp payload "watermark")
                       (JObj [ ("detected", JBool false); ("signatures", JArr []) ]).
Proof.
  intros Hn. unfold mapResult.
  destruct payload; try discriminate; simpl; eexists; repeat split.
Qed.


(** C10. For an object payload whose [isAI] is absent or falsy the
    normalized result has [isAI = false]; without a numeric [score] its
    score is 2, and without a verdict text its verdict is "AUTHENTIC".
    With [isAI = true] the result has [isAI = true], score 98 without a
    numeric [score], and verdict "SYNTHETIC DETECTED" without a verdict
    text. *)
Theorem object_payload_classification (fields : list (string * JSValue))
  (s : AppState) :
  exists r,
    currentResult (handleResult host (JObj fields) s) = Some r
    /\ (truthy (lookup "isAI" fields) = false ->
        isAI r = JBool false
        /\ (isNumber (lookup "score" fields) = false -> score r = num 2)
        /\ (truthy (lookup "verdict" fields) = false -> verdict r = JStr "AUTHENTIC"))
    /\ (lookup "isAI" fields = JBool true ->
        isAI r = JBool true
        /\ (isNumber (lookup "score" fields) = false -> score r = num 98)
        /\ (truthy (lookup "verdict" fields) = false ->
            verdict r = JStr "SYNTHETIC DETECTED")).
Proof.
  destruct (mapResult_total (JObj fields) (now host (tick s)))
    as [r [Hr [Hi [Hs [Hv _]]]]]; [reflexivity|].
  exists r. split; [apply (bridge_result (JObj fields) s r Hr)|].
  unfold or_else in *. simpl in Hi, Hs, Hv.
  split.
  - intros H. rewrite H in *. repeat split; try assumption.
    + intros Hn. now rewrite Hn in Hs.
    + intros Ht. now rewrite Ht in Hv.
  - intros H. rewrite H in *. simpl in *. repeat split; try assumption.
    + intros Hn. now rewrite Hn in Hs.
    + intros Ht. now rewrite Ht in Hv.
Qed.

(** ** The preprocessor's fallback *)

Lemma upToComma_clean (a : string) :
  includes a "," = false -> upToComma a = a.
Proof.
  induction a as [|c a IH]; [reflexivity|].
  cbn [includes startsWith upToComma].
  destruct (Ascii.eqb_spec "," c) as [<-|Hc].
  - destruct a; discriminate.
  - cbn [andb orb]. intros H. rewrite Ascii.eqb_sym.
    apply Ascii.eqb_neq in Hc. rewrite Hc. now rewrite IH.
Qed.

Lemma splitComma1_clean (a b : string) :
  includes a "," = false ->
  splitComma1 (a ++ String "," b) = Some (upToComma b).
Proof.
  induction a as [|c a IH]; [reflexivity|].
  cbn [includes startsWith append splitComma1].
  destruct (Ascii.eqb_spec "," c) as [<-|Hc].
  - destruct a; discriminate.
  - cbn [andb orb]. intros H. rewrite Ascii.eqb_sym.
    apply Ascii.eqb_neq in Hc. rewrite Hc. now apply IH.
Qed.

(** Reading a file whose MIME type and base64 text hold no comma gives
    back the base64 text. *)
Lemma raw_payload (f : File) :
  readable f = true ->
  includes (type f) "," = false ->
  includes (rawBase64 f) "," = false ->
  (url <- readAsDataURL f ;; Ok (afterComma url)) = Ok (rawBase64 f).
Proof.
  intros Hr Ht Hb. unfold readAsDataURL, afterComma. rewrite Hr. cbn [bind].
  set (ty := if String.eqb (type f) EmptyString then _ else _).
  assert (Hty : includes ("data:" ++ ty ++ ";base64") "," = false).
  { subst ty. destruct (String.eqb (type f) EmptyString); [reflexivity|].
    apply not_true_is_false. rewrite includes_infix. intros [pre [post H]].
    assert (Hin : includes (type f) "," = true); [|congruence].
    apply includes_infix.
    change ("data:" ++ type f ++ ";base64") with
      (String "d" (String "a" (String "t" (String "a" (String ":" (type f ++ ";base64"))))))
      in H.
    destruct pre as [|c1 [|c2 [|c3 [|c4 [|c5 pre]]]]]; try discriminate.
    injection H as _ _ _ _ _ H.
    clear -H. revert pre H. generalize (type f) as t.
    induction t as [|c t IH]; intros pre H.
    - destruct pre as [|p1 [|p2 [|p3 [|p4 [|p5 [|p6 [|p7 [|p8 pre]]]]]]]];
        try discriminate; destruct pre; discriminate.
    - destruct pre as [|p pre].
      + injection H as -> _. exists EmptyString, t. reflexivity.
      + injection H as -> H. destruct (IH _ H) as [pre' [post' ->]].
        exists (String p pre'), post'. reflexivity. }
  replace ("data:" ++ ty ++ ";base64," ++ rawBase64 f)
    with (("data:" ++ ty ++ ";base64") ++ String "," (rawBase64 f)).
  - rewrite (splitComma1_clean _ _ Hty). now rewrite (upToComma_clean _ Hb).
  - simpl. f_equal. f_equal. f_equal. f_equal. f_equal.
    clear. induction ty; simpl; congruence.
Qed.

(** The fallback keeps the bytes and the controller relabels them: for an
    image file that cannot be optimized, the request carries the raw
    payload under the MIME type [image/jpeg]. *)
Lemma fallback_request (f : File) (s : AppState) (e : JSError) :
  startsWith (type f) "image/" = true ->
  optimizeImageForMobile host f = Err e ->
  readable f = true ->
  includes (type f) "," = false ->
  includes (rawBase64 f) "," = false ->
  fileToBase64 host f = Ok (rawBase64 f)
  /\ requests (handleScanStart host [f] s)
     = (requests s ++ [(rawBase64 f, "image/jpeg")])%list.
Proof.
  intros Hi Ho Hr Ht Hb.
  assert (Hf : fileToBase64 host f = Ok (rawBase64 f)).
  { unfold fileToBase64. rewrite Hi, Ho. now apply raw_payload. }
  split; [exact Hf|].
  unfold handleScanStart; simpl. rewrite Hf. unfold effectiveMimeType. rewrite Hi.
  destruct (analyzeContent host (tick s) (rawBase64 f) "image/jpeg"); reflexivity.
Qed.

(** ** The batch runner *)

Lemma failures_le (files : list File) :
  forall t, (failures host t files <= List.length files)%nat.
Proof.
  induction files as [|f rest IH]; intros t; simpl; [lia|].
  specialize (IH (S t)). destruct (isOk (scanFile host t f)); lia.
Qed.

(** One run of the effect on a non-empty queue. *)
Lemma processQueue_step (s : AppState) (f : File) (rest : list File) :
  view s = BATCH_PROCESSING ->
  batchQueue s = f :: rest ->
  let s' := processQueue host s in
  let won := if isOk (scanFile host (tick s) f) then 1%nat else 0%nat in
  batchQueue s' = rest
  /\ batchProgress s' = batchProgress s + 1
  /\ scanned s' = (scanned s ++ [f])%list
  /\ tick s' = S (tick s)
  /\ view s' = match rest with [] => BATCH_RESULT | _ :: _ => BATCH_PROCESSING end
  /\ status s' = match rest with [] => COMPLETE | _ :: _ => status s end
  /\ List.length (batchResults s') = (List.length (batchResults s) + won)%nat
  /\ List.length (history s') = (List.length (history s) + won)%nat.
Proof.
  intros Hv Hq. rewrite scanFile_unfold. unfold processQueue. rewrite Hv, Hq.
  destruct (fileToBase64 host f) as [b|e]; cbn [isOk].
  - destruct (analyzeContent host (tick s) b (effectiveMimeType f));
      destruct rest; simpl; rewrite ?length_app; simpl; rewrite ?Hv;
      repeat split; lia.
  - destruct rest; simpl; rewrite ?Hv; repeat split; lia.
Qed.

(** Draining a queue of [n] files takes [n] runs of the effect. *)
Lemma drainQueue_accounting (files : list File) :
  forall s,
    view s = BATCH_PROCESSING ->
    batchQueue s = files ->
    files <> [] ->
    let s' := drainQueue host (List.length files) s in
    view s' = BATCH_RESULT
    /\ status s' = COMPLETE
    /\ batchQueue s' = []
    /\ batchProgress s' = batchProgress s + Z.of_nat (List.length files)
    /\ scanned s' = (scanned s ++ files)%list
    /\ tick s' = (tick s + List.length files)%nat
    /\ (List.length (batchResults s') + failures host (tick s) files
        = List.length (batchResults s) + List.length files)%nat
    /\ (List.length (history s') + failures host (tick s) files
        = List.length (history s) + List.length files)%nat.
Proof.
  induction files as [|f rest IH]; intros s Hv Hq Hne; [congruence|].
  cbn [List.length drainQueue failures].
  unfold queueActive. rewrite Hv, Hq.
  destruct (processQueue_step s f rest Hv Hq)
    as [Hq1 [Hp1 [Hs1 [Ht1 [Hv1 [Hst1 [Hb1 Hh1]]]]]]].
  destruct rest as [|g rest].
  - cbn [drainQueue List.length failures].
    repeat split; try assumption; try lia.
    + destruct (isOk (scanFile host (tick s) f)); lia.
    + destruct (isOk (scanFile host (tick s) f)); lia.
  - destruct (IH (processQueue host s) Hv1 Hq1 ltac:(discriminate))
      as [Hv2 [Hst2 [Hq2 [Hp2 [Hs2 [Ht2 [Hb2 Hh2]]]]]]].
    repeat split; try assumption.
    + rewrite Hp2, Hp1. cbn [List.length]. lia.
    + rewrite Hs2, Hs1, <- app_assoc. reflexivity.
    + rewrite Ht2, Ht1. cbn [List.length]. lia.
    + rewrite Ht1 in Hb2. cbn [List.length] in *.
      destruct (isOk (scanFile host (tick s) f)); lia.
    + rewrite Ht1 in Hh2. cbn [List.length] in *.
      destruct (isOk (scanFile host (tick s) f)); lia.
Qed.











(** ** The preprocessor's output size *)

Lemma canvasSize_small (w h : Z) :
  w <= 1024 -> h <= 1024 -> canvasSize w h = (w, h).
Proof.
  intros Hw Hh. unfold canvasSize, MAX_WIDTH, MAX_HEIGHT.
  destruct (Z.gtb_spec w h), (Z.gtb_spec w 1024), (Z.gtb_spec h 1024);
    try reflexivity; lia.
Qed.

Lemma canvasSize_large (w h : Z) :
  0 <= w < 2 ^ 32 -> 0 <= h < 2 ^ 32 ->
  1024 < w \/ 1024 < h ->
  let '(cw, ch) := canvasSize w h in
  Z.max cw ch = 1024
  /\ if w >? h
     then cw = 1024 /\ ch * w <= 1024 * h <= (ch + 1) * w
     else ch = 1024 /\ cw * h <= 1024 * w <= (cw + 1) * h.
Proof.
  intros Hw Hh Hbig. unfold canvasSize, MAX_WIDTH, MAX_HEIGHT.
  destruct (Z.gtb_spec w h) as [Hgt|Hle].
  - destruct (Z.gtb_spec w 1024); [|lia].
    destruct (scaled_side h w ltac:(lia) ltac:(lia)) as [Hd Hq].
    split; [lia | split; [reflexivity | exact Hq]].
  - destruct (Z.gtb_spec h 1024); [|lia].
    destruct (scaled_side w h ltac:(lia) ltac:(lia)) as [Hd Hq].
    split; [lia | split; [reflexivity | exact Hq]].
Qed.

End Controller.

(** * The controller on concrete inputs *)


(** C5, on a text that is not JSON and mentions "ai". *)
Lemma unparseable_string_heuristic_witness :
  JSON_parse demoHost "AI generated image" = Err (ErrorObj "Unexpected token in JSON")
  /\ exists r,
       currentResult (handleResult demoHost (JStr "AI generated image") initialState)
       = Some r
       /\ isAI r = JBool true /\ score r = num 95.
Proof.
  split; [reflexivity|].
  destruct (unparseable_string_heuristic demoHost "AI generated image"
              (ErrorObj "Unexpected token in JSON") initialState eq_refl)
    as [r [H [_ [Hyes _]]]].
  exists r. split; [exact H|].
  assert (Hm : mentions "AI generated image" "ai")
    by (exists EmptyString, "AI", " generated image"; split; reflexivity).
  destruct (Hyes (or_introl Hm)) as [Hi [Hs _]].
  split; [exact Hi | exact Hs].
Defined.


(** C8, on a clip that the service refuses. *)
Lemma single_scan_failure_witness :
  scanFile demoHost (tick initialState) clip = Err (ErrorObj "503 Service Unavailable")
  /\ alerts (handleScanStart demoHost [clip] initialState)
     = ["Analysis Error: 503 Service Unavailable. Try a smaller image."]
  /\ view (handleScanStart demoHost [clip] initialState) = HOME
  /\ status (handleScanStart demoHost [clip] initialState) = ERROR
  /\ currentResult (handleScanStart demoHost [clip] initialState) = None
  /\ history (handleScanStart demoHost [clip] initialState) = [].
Proof.
  split; [reflexivity|].
  apply (single_scan_failure demoHost initialState clip
           (ErrorObj "503 Service Unavailable")).
  reflexivity.
Defined.

(** C10, on the empty object. *)
Lemma object_payload_classification_witness :
  truthy (lookup "isAI" []) = false
  /\ exists r,
       currentResult (handleResult demoHost (JObj []) initialState) = Some r
       /\ isAI r = JBool false /\ score r = num 2 /\ verdict r = JStr "AUTHENTIC".
Proof.
  split; [reflexivity|].
  destruct (object_payload_classification demoHost [] initialState)
    as [r [Hr [Hfalse _]]].
  destruct (Hfalse eq_refl) as [Hi [Hs Hv]].
  exists r. split; [exact Hr|]. split; [exact Hi|].
  split; [apply Hs; reflexivity | apply Hv; reflexivity].
Defined.




(** C2: a PNG that does not decode goes out as raw bytes, labelled
    [image/jpeg], on the single path and on the batch path. *)
Lemma fallback_labels_raw_bytes_jpeg :
  type brokenPng = "image/png"
  /\ optimizeImageForMobile demoHost brokenPng
     = Err (ErrorObj "Image processing failed: [object Event]")
  /\ fileToBase64 demoHost brokenPng = Ok (rawBase64 brokenPng)
  /\ requests (handleScanStart demoHost [brokenPng] initialState)
     = [(rawBase64 brokenPng, "image/jpeg")]
  /\ view (handleScanStart demoHost [brokenPng] initialState) = RESULT
  /\ requests (drainQueue demoHost 2
                 (handleScanStart demoHost [brokenPng; brokenPng] initialState))
     = [(rawBase64 brokenPng, "image/jpeg"); (rawBase64 brokenPng, "image/jpeg")].
Proof. repeat split. Qed.

(** C3: a PNG of 5000 x 2 pixels is preprocessed without an error and
    its width exceeds 1024, but no image comes out.  The canvas is
    1024 x 0, its data URL is ["data:,"], and the payload is the empty
    text, which no encoding of a canvas by this host is; the scan sends
    it labelled [image/jpeg].  The same size computation gives a canvas
    without pixels for 1025 x 1 and for 50176 x 49. *)
Lemma optimized_sliver_is_empty :
  image sliver = Decoded 5000 2
  /\ canvasSize 5000 2 = (1024, 0)
  /\ toDataURL demoHost sliver 1024 0 "image/jpeg" JPEG_QUALITY = "data:,"
  /\ optimizeImageForMobile demoHost sliver
     = Ok {| optBase64 := EmptyString; optMimeType := "image/jpeg";
             optWidth := 1024; optHeight := 0 |}
  /\ (forall cw ch,
        encodeCanvas demoHost sliver cw ch "image/jpeg" JPEG_QUALITY <> EmptyString)
  /\ fileToBase64 demoHost sliver = Ok EmptyString
  /\ requests (handleScanStart demoHost [sliver] initialState)
     = [(EmptyString, "image/jpeg")]
  /\ canvasSize 1025 1 = (1024, 0)
  /\ canvasSize 50176 49 = (1024, 0).
Proof.
  do 4 (split; [reflexivity|]).
  split; [intros cw ch; discriminate|].
  repeat split.
Qed.

(** The tolerance is met with equality on some inputs.  A 50176 x 49
    strip has the exact quotient 1024 * 49 / 50176 = 1, and the double
    [49 * (1024 / 50176)] is just below 1: the canvas is 1024 x 0.  A
    square of side 1122 comes out 1023 x 1024. *)
Example thin_strip_canvas : canvasSize 50176 49 = (1024, 0).
Proof. reflexivity. Qed.

Example square_canvas : canvasSize 1122 1122 = (1023, 1024).
Proof. reflexivity. Qed.

Example landscape_canvas : canvasSize 4000 3000 = (1024, 768).
Proof. reflexivity. Qed.

(** * Further properties of the code *)

Section Preprocessor.

Variable host : Host.

Lemma fileToBase64_readable (f : File) :
  isOk (fileToBase64 host f) = readable f.
Proof.
  unfold fileToBase64, optimizeImageForMobile, readAsDataURL.
  destruct (readable f); cbn [bind isOk].
  - destruct (startsWith (type f) "image/"); [|reflexivity].
    destruct (image f) as [|w h]; [reflexivity|].
    destruct (canvasSize w h) as [cw ch].
    destruct (getContext2d host cw ch); reflexivity.
  - destruct (startsWith (type f) "image/"); reflexivity.
Qed.

(** With a canvas that does not throw the promise is the result of the
    controller's model. *)
Lemma optimizePromise_sound (canvasThrows : File -> Z -> Z -> bool) (f : File) :
  (forall cw ch, canvasThrows f cw ch = false) ->
  optimizePromise host canvasThrows f = Settled (optimizeImageForMobile host f).
Proof.
  intros Hno. unfold optimizePromise, optimizeImageForMobile.
  destruct (readAsDataURL f); cbn [bind]; [|reflexivity].
  destruct (image f) as [|w h]; [reflexivity|].
  destruct (canvasSize w h) as [cw ch].
  destruct (getContext2d host cw ch); [|reflexivity].
  now rewrite Hno.
Qed.

(** X1. How the promise of [fileToBase64] settles.  It rejects exactly
    when the file cannot be read.  It stays pending, neither resolved nor
    rejected, exactly when the file is a readable image that decodes and
    gets a 2D context, and drawing or encoding throws.  In every other
    case it resolves: a decoding failure or a missing context only sends
    the raw bytes.  Whenever it settles, it settles as [fileToBase64] of
    the controller's model does. *)
Theorem fileToBase64_settlement (canvasThrows : File -> Z -> Z -> bool) (f : File) :
  let stuck :=
    startsWith (type f) "image/" && readable f
    && match image f with
       | Broken => false
       | Decoded w h =>
         getContext2d host (fst (canvasSize w h)) (snd (canvasSize w h))
         && canvasThrows f (fst (canvasSize w h)) (snd (canvasSize w h))
       end in
  (fileToBase64Promise host canvasThrows f = Pending <-> stuck = true)
  /\ ((exists e, fileToBase64Promise host canvasThrows f = Settled (Err e))
      <-> readable f = false)
  /\ ((exists payload, fileToBase64Promise host canvasThrows f = Settled (Ok payload))
      <-> readable f = true /\ stuck = false)
  /\ (stuck = false ->
      fileToBase64Promise host canvasThrows f = Settled (fileToBase64 host f)).
Proof.
  cbv zeta.
  unfold fileToBase64Promise, fileToBase64, optimizePromise, optimizeImageForMobile,
    readAsDataURL.
  destruct (startsWith (type f) "image/"), (readable f); cbn [andb bind];
    try (repeat split; intros; try discriminate; try congruence; eauto;
         match goal with
         | H : exists _, _ |- _ => destruct H; congruence
         | H : _ /\ _ |- _ => destruct H; congruence
         end).
  destruct (image f) as [|w h].
  - repeat split; intros; try discriminate; try congruence; eauto;
      match goal with
      | H : exists _, _ |- _ => destruct H; congruence
      end.
  - destruct (canvasSize w h) as [cw ch]. cbn [fst snd].
    destruct (getContext2d host cw ch), (canvasThrows f cw ch); cbn [andb];
      repeat split; intros; try discriminate; try congruence; eauto;
      match goal with
      | H : exists _, _ |- _ => destruct H; congruence
      | H : _ /\ _ |- _ => destruct H; congruence
      end.
Qed.

(** X2. A file that is not an image is neither resized nor re-encoded:
    its base64 text is the payload, and a single scan sends it under the
    file's own MIME type. *)
Theorem non_image_passes_through (f : File) (s : AppState) :
  startsWith (type f) "image/" = false ->
  readable f = true ->
  includes (type f) "," = false ->
  includes (rawBase64 f) "," = false ->
  fileToBase64 host f = Ok (rawBase64 f)
  /\ requests (handleScanStart host [f] s)
     = (requests s ++ [(rawBase64 f, type f)])%list.
Proof.
  intros Hi Hr Ht Hb.
  assert (Hf : fileToBase64 host f = Ok (rawBase64 f)).
  { unfold fileToBase64. rewrite Hi. now apply raw_payload. }
  split; [exact Hf|].
  unfold handleScanStart; simpl. rewrite Hf. unfold effectiveMimeType. rewrite Hi.
  destruct (analyzeContent host (tick s) (rawBase64 f) (type f)); reflexivity.
Qed.

(** The scaled side is never larger than the side it comes from. *)
Lemma scaled_side_le (side other : Z) :
  1024 < other < 2 ^ 32 ->
  0 <= side <= other ->
  Num.toUint32 (Num.mul (Num.ofZ side) (Num.div (Num.ofZ 1024) (Num.ofZ other)))
  <= side.
Proof.
  intros Ho Hs. destruct (scaled_side side other Ho Hs) as [Hd [Hq _]].
  set (d := Num.toUint32 _) in *.
  destruct (Z_le_gt_dec d side) as [|Hgt]; [assumption|].
  assert ((side + 1) * other <= d * other) by (apply Z.mul_le_mono_nonneg_r; lia).
  nia.
Qed.

Lemma canvasSize_bounds (w h : Z) :
  0 <= w < 2 ^ 32 ->
  0 <= h < 2 ^ 32 ->
  0 <= fst (canvasSize w h) <= Z.min w 1024
  /\ 0 <= snd (canvasSize w h) <= Z.min h 1024.
Proof.
  intros Hw Hh. unfold canvasSize, MAX_WIDTH, MAX_HEIGHT.
  destruct (Z.gtb_spec w h) as [Hgt|Hle].
  - destruct (Z.gtb_spec w 1024); cbn [fst snd]; [|lia].
    destruct (scaled_side h w ltac:(lia) ltac:(lia)) as [Hd _].
    pose proof (scaled_side_le h w ltac:(lia) ltac:(lia)). lia.
  - destruct (Z.gtb_spec h 1024); cbn [fst snd]; [|lia].
    destruct (scaled_side w h ltac:(lia) ltac:(lia)) as [Hd _].
    pose proof (scaled_side_le w h ltac:(lia) ltac:(lia)). lia.
Qed.

(** X3. The canvas fits in the 1024 x 1024 box and is never larger than
    the image in either direction. *)
Theorem canvasSize_within_box (w h : Z) :
  0 <= w < 2 ^ 32 ->
  0 <= h < 2 ^ 32 ->
  0 <= fst (canvasSize w h) <= Z.min w 1024
  /\ 0 <= snd (canvasSize w h) <= Z.min h 1024.
Proof. exact (canvasSize_bounds w h). Qed.

(** X4. Sizing is idempotent: the canvas of an image that already has the
    size of a canvas is that size again. *)
Theorem canvasSize_idempotent (w h : Z) :
  0 <= w < 2 ^ 32 ->
  0 <= h < 2 ^ 32 ->
  canvasSize (fst (canvasSize w h)) (snd (canvasSize w h)) = canvasSize w h.
Proof.
  intros Hw Hh. destruct (canvasSize_bounds w h Hw Hh) as [H1 H2].
  destruct (canvasSize w h) as [cw ch]. cbn [fst snd] in *.
  apply canvasSize_small; lia.
Qed.

(** X5. An image more than 1024 times as long as it is wide (or as wide
    as it is long) gets a canvas without pixels: the preprocessor
    resolves with the empty payload, and that is what goes to the
    service. *)
Theorem sliver_gives_empty_payload (f : File) (w h : Z) (o : Optimized) :
  image f = Decoded w h ->
  0 <= w < 2 ^ 32 ->
  0 <= h < 2 ^ 32 ->
  (1024 < w /\ 1024 * h < w) \/ (1024 < h /\ 1024 * w < h) ->
  optimizeImageForMobile host f = Ok o ->
  (optWidth o = 0 \/ optHeight o = 0) /\ optBase64 o = EmptyString.
Proof.
  intros Himg Hw Hh Hthin Hopt.
  unfold optimizeImageForMobile in Hopt.
  destruct (readAsDataURL f); [|discriminate]. cbn [bind] in Hopt.
  rewrite Himg in Hopt.
  destruct (canvasSize w h) as [cw ch] eqn:Esize.
  destruct (getContext2d host cw ch); [|discriminate].
  injection Hopt as <-. cbn [optBase64 optWidth optHeight].
  assert (Hzero : cw = 0 \/ ch = 0).
  { pose proof (canvasSize_large w h Hw Hh ltac:(lia)) as H. rewrite Esize in H.
    destruct H as [_ H].
    destruct Hthin as [[H1 H2]|[H1 H2]].
    - replace (w >? h) with true in H by (symmetry; apply Z.gtb_lt; lia).
      destruct H as [_ [Hq _]]. right.
      pose proof (canvasSize_bounds w h Hw Hh) as [_ Hb].
      rewrite Esize in Hb. cbn [snd] in Hb. nia.
    - replace (w >? h) with false in H
        by (symmetry; apply not_true_is_false; rewrite Z.gtb_lt; lia).
      destruct H as [_ [Hq _]]. left.
      pose proof (canvasSize_bounds w h Hw Hh) as [Hb _].
      rewrite Esize in Hb. cbn [fst] in Hb. nia. }
  split; [exact Hzero|].
  unfold toDataURL.
  replace ((cw =? 0) || (ch =? 0)) with true; [reflexivity|].
  symmetry. apply orb_true_iff.
  destruct Hzero as [-> | ->]; [left | right]; reflexivity.
Qed.

(** The data URL of a canvas with pixels, after the comma. *)
Lemma toDataURL_payload (f : File) (cw ch : Z) (q : number) :
  1 <= cw -> 1 <= ch ->
  afterComma (toDataURL host f cw ch "image/jpeg" q)
  = upToComma (encodeCanvas host f cw ch "image/jpeg" q).
Proof.
  intros Hw Hh. unfold toDataURL, afterComma.
  replace ((cw =? 0) || (ch =? 0)) with false.
  - change ("data:" ++ "image/jpeg" ++ ";base64," ++ encodeCanvas host f cw ch "image/jpeg" q)
      with ("data:image/jpeg;base64"
            ++ String "," (encodeCanvas host f cw ch "image/jpeg" q)).
    now rewrite splitComma1_clean.
  - symmetry. apply orb_false_iff. split; apply Z.eqb_neq; lia.
Qed.

(** X21. What the optimizer puts out for an image with pixels whose
    longer side is at most 1024, or less than 1024 times the shorter one.
    The payload is the text that the encoder gives for a canvas of
    [cw] x [ch] pixels, for the type [image/jpeg] and the quality 0.85
    (the double next to 85/100), up to a comma; base64 text has none.
    Both sides of the canvas are at least 1.  If both sides of the image
    are at most 1024 the canvas has the size of the image.  If a side
    exceeds 1024 the larger side of the canvas is exactly 1024 and the
    other side [c] is the proportional one to within a pixel:
    [c <= 1024 * small / large <= c + 1]. *)
Theorem optimized_payload_dimensions (f : File) (w h : Z) (o : Optimized) :
  image f = Decoded w h ->
  1 <= w < 2 ^ 32 ->
  1 <= h < 2 ^ 32 ->
  Z.max w h <= 1024 \/ Z.max w h < 1024 * Z.min w h ->
  optimizeImageForMobile host f = Ok o ->
  exists cw ch,
    canvasSize w h = (cw, ch)
    /\ 1 <= cw <= 1024 /\ 1 <= ch <= 1024
    /\ optMimeType o = "image/jpeg"
    /\ optBase64 o = upToComma (encodeCanvas host f cw ch "image/jpeg" JPEG_QUALITY)
    /\ (includes (encodeCanvas host f cw ch "image/jpeg" JPEG_QUALITY) "," = false ->
        optBase64 o = encodeCanvas host f cw ch "image/jpeg" JPEG_QUALITY)
    /\ JPEG_QUALITY = S754_finite false 7656119366529843 (-53)
    /\ Z.abs (100 * 7656119366529843 - 85 * 2 ^ 53) <= 50
    /\ (w <= 1024 -> h <= 1024 -> cw = w /\ ch = h)
    /\ (1024 < w \/ 1024 < h ->
        Z.max cw ch = 1024
        /\ if w >? h
           then cw = 1024 /\ ch * w <= 1024 * h <= (ch + 1) * w
           else ch = 1024 /\ cw * h <= 1024 * w <= (cw + 1) * h).
Proof.
  intros Himg Hw Hh Hfat Hopt.
  unfold optimizeImageForMobile in Hopt.
  destruct (readAsDataURL f); [|discriminate]. cbn [bind] in Hopt.
  rewrite Himg in Hopt.
  destruct (canvasSize w h) as [cw ch] eqn:Esize.
  destruct (getContext2d host cw ch); [|discriminate].
  injection Hopt as <-. cbn [optMimeType optBase64].
  assert (Hw0 : 0 <= w < 2 ^ 32) by lia.
  assert (Hh0 : 0 <= h < 2 ^ 32) by lia.
  pose proof (canvasSize_bounds w h Hw0 Hh0) as [Hbw Hbh].
  rewrite Esize in Hbw, Hbh. cbn [fst snd] in Hbw, Hbh.
  assert (Hbig : 1024 < w \/ 1024 < h ->
            Z.max cw ch = 1024
            /\ if w >? h
               then cw = 1024 /\ ch * w <= 1024 * h <= (ch + 1) * w
               else ch = 1024 /\ cw * h <= 1024 * w <= (cw + 1) * h).
  { intros Hb. pose proof (canvasSize_large w h Hw0 Hh0 Hb) as H.
    rewrite Esize in H. exact H. }
  assert (Hsmall : w <= 1024 -> h <= 1024 -> cw = w /\ ch = h).
  { intros H1 H2. rewrite canvasSize_small in Esize by assumption.
    injection Esize as <- <-. split; reflexivity. }
  assert (Hpix : 1 <= cw /\ 1 <= ch).
  { destruct (Z_le_gt_dec w 1024) as [H1|H1], (Z_le_gt_dec h 1024) as [H2|H2].
    - destruct (Hsmall H1 H2) as [-> ->]. lia.
    - destruct (Hbig ltac:(lia)) as [_ H].
      replace (w >? h) with false in H
        by (symmetry; apply not_true_is_false; rewrite Z.gtb_lt; lia).
      destruct H as [-> [_ Hq]].
      assert (Hc : cw = 0 \/ 1 <= cw) by lia.
      destruct Hc as [-> | Hc]; lia.
    - destruct (Hbig ltac:(lia)) as [_ H].
      replace (w >? h) with true in H by (symmetry; apply Z.gtb_lt; lia).
      destruct H as [-> [_ Hq]].
      assert (Hc : ch = 0 \/ 1 <= ch) by lia.
      destruct Hc as [-> | Hc]; lia.
    - destruct (Hbig ltac:(lia)) as [_ H].
      destruct (Z.gtb_spec w h) as [Hgt|Hle].
      + destruct H as [-> [_ Hq]].
        assert (Hc : ch = 0 \/ 1 <= ch) by lia.
        destruct Hc as [-> | Hc]; lia.
      + destruct H as [-> [_ Hq]].
        assert (Hc : cw = 0 \/ 1 <= cw) by lia.
        destruct Hc as [-> | Hc]; lia. }
  destruct Hpix as [Hp1 Hp2].
  pose proof (toDataURL_payload f cw ch JPEG_QUALITY Hp1 Hp2) as Hpay.
  exists cw, ch.
  split; [reflexivity|]. split; [lia|]. split; [lia|]. split; [reflexivity|].
  split; [exact Hpay|].
  split; [intros Hclean; rewrite Hpay; now apply upToComma_clean|].
  split; [reflexivity|]. split; [simpl; lia|].
  split; [exact Hsmall | exact Hbig].
Qed.

End Preprocessor.

Section Orchestration.

Variable host : Host.

(** X6. A single scan that succeeds: one request with the preprocessed
    payload under the effective MIME type, the result and the upload
    become current, the view is Result with status Complete, and no alert
    is shown. *)
Theorem single_scan_success (s : AppState) (f : File) (r : AnalysisResult) :
  scanFile host (tick s) f = Ok r ->
  let s' := handleScanStart host [f] s in
  exists payload,
    fileToBase64 host f = Ok payload
    /\ requests s' = (requests s ++ [(payload, effectiveMimeType f)])%list
    /\ currentFile s'
       = Some {| file := Some f; previewUrl := createObjectURL host (tick s) f;
                 mimeType := effectiveMimeType f; base64 := payload |}
    /\ currentResult s' = Some r
    /\ view s' = RESULT
    /\ status s' = COMPLETE
    /\ alerts s' = alerts s.
Proof.
  rewrite scanFile_unfold. unfold handleScanStart; simpl.
  destruct (fileToBase64 host f) as [b|e]; [|discriminate].
  intros H. exists b. simpl. rewrite H. simpl. repeat split.
Qed.

(** The current file after an injection that was mapped. *)
Lemma bridge_current_file (v : JSValue) (s : AppState) :
  nullish (parsePayload host v) = false ->
  currentFile (handleResult host v s)
  = match currentFile s with
    | None => Some placeholderFile
    | Some fd => Some fd
    end
  /\ resultViewShown (handleResult host v s) = true.
Proof.
  intros Hn.
  destruct (mapResult_total (parsePayload host v) (now host (tick s)) Hn) as [r [Hr _]].
  unfold handleResult, resultViewShown.
  destruct (originalHandleResult host); simpl; rewrite Hr;
    destruct (currentFile s) eqn:Ec; simpl; rewrite ?Ec; split; reflexivity.
Qed.

(** X7. When the service refuses an upload that was preprocessed, the
    upload stays the current file; a bridge injection that follows is
    then shown against that upload, not against the placeholder. *)
Theorem injection_after_failed_request (s : AppState) (f : File) (payload : string)
  (e : JSError) (v : JSValue) :
  fileToBase64 host f = Ok payload ->
  analyzeContent host (tick s) payload (effectiveMimeType f) = Err e ->
  nullish (parsePayload host v) = false ->
  let upload := {| file := Some f; previewUrl := createObjectURL host (tick s) f;
                   mimeType := effectiveMimeType f; base64 := payload |} in
  let failed := handleScanStart host [f] s in
  view failed = HOME
  /\ currentFile failed = Some upload
  /\ currentFile (handleResult host v failed) = Some upload
  /\ resultViewShown (handleResult host v failed) = true.
Proof.
  intros Hf Ha Hn upload failed.
  assert (Hc : currentFile failed = Some upload /\ view failed = HOME).
  { unfold failed, handleScanStart; simpl. rewrite Hf. simpl. rewrite Ha. split; reflexivity. }
  destruct Hc as [Hc Hv].
  destruct (bridge_current_file v failed Hn) as [Hcf Hshown].
  rewrite Hc in Hcf.
  split; [exact Hv|]. split; [exact Hc|]. split; [exact Hcf | exact Hshown].
Qed.

(** X8. An injection whose payload is [null] or [undefined] (also the
    JSON text [null]) is dropped: every cell of the controller keeps its
    value. *)
Theorem nullish_injection_dropped (v : JSValue) (s : AppState) :
  nullish (parsePayload host v) = true ->
  let s' := handleResult host v s in
  view s' = view s /\ status s' = status s
  /\ currentFile s' = currentFile s /\ currentResult s' = currentResult s
  /\ history s' = history s
  /\ batchQueue s' = batchQueue s /\ batchResults s' = batchResults s
  /\ batchProgress s' = batchProgress s.
Proof.
  intros Hn. unfold handleResult.
  assert (Hm : exists e, mapResult (parsePayload host v) (now host (tick s)) = Err e).
  { unfold mapResult. destruct (parsePayload host v); try discriminate; eexists; reflexivity. }
  destruct Hm as [e He].
  destruct (originalHandleResult host); simpl; rewrite He; repeat split.
Qed.

(** X9. No injected result carries a video analysis, whatever the payload
    holds and whatever file is current: the bridge mapping leaves the
    field out, so for the result that an accepted injection makes current
    [hasVideoAnalysis] is false, and [canScrubVideo] is false for every
    file. *)
Theorem injection_never_scrubs (v : JSValue) (s : AppState) :
  nullish (parsePayload host v) = false ->
  let s' := handleResult host v s in
  exists r,
    currentResult s' = Some r
    /\ videoAnalysis r = JUndefined
    /\ hasVideoAnalysis r = false
    /\ forall fd, canScrubVideo fd r = false.
Proof.
  intros Hn s'.
  destruct (mapResult_total (parsePayload host v) (now host (tick s)) Hn)
    as [r [Hr _]].
  assert (Hv : videoAnalysis r = JUndefined).
  { unfold mapResult in Hr. destruct (getProp (parsePayload host v) "isAI");
      [|discriminate]. cbn [bind] in Hr. injection Hr as <-. reflexivity. }
  destruct (bridge_result host v s r Hr) as [Hc _].
  fold s' in Hc.
  exists r. split; [exact Hc|]. split; [exact Hv|].
  unfold canScrubVideo, hasVideoAnalysis. rewrite Hv.
  split; [reflexivity | intros fd; apply andb_false_r].
Qed.

(** X10. A complete payload goes through the normalization unchanged:
    when its ten fields are set (and the score is a number) the mapped
    result has exactly the payload's values, as the request client's
    stamp has, except that the video analysis is left out. *)
Theorem complete_payload_preserved (payload : JSValue) (ts : string) :
  nullish payload = false ->
  isNumber (spreadProp payload "score") = true ->
  forallb (fun k => truthy (spreadProp payload k))
    [ "isAI"; "verdict"; "reasoning"; "technicalDetails"; "modelSignature";
      "forensicMetrics"; "humanPerception"; "suspiciousRegions"; "watermark" ] = true ->
  mapResult payload ts
  = Ok {| isAI := isAI (stamp payload ts);
          score := score (stamp payload ts);
          verdict := verdict (stamp payload ts);
          reasoning := reasoning (stamp payload ts);
          technicalDetails := technicalDetails (stamp payload ts);
          modelSignature := modelSignature (stamp payload ts);
          forensicMetrics := forensicMetrics (stamp payload ts);
          humanPerception := humanPerception (stamp payload ts);
          suspiciousRegions := suspiciousRegions (stamp payload ts);
          watermark := watermark (stamp payload ts);
          videoAnalysis := JUndefined;
          timestamp := ts |}.
Proof.
  intros Hn Hs Hall. cbn [forallb] in Hall.
  repeat (apply andb_true_iff in Hall; destruct Hall as [? Hall]).
  unfold mapResult, or_else.
  destruct payload; try discriminate; cbn [getProp bind stamp spreadProp] in *;
    repeat match goal with H : truthy _ = true |- _ => rewrite H; clear H end;
    try rewrite Hs; try reflexivity; discriminate.
Qed.

(** X11. A scan succeeds exactly when the file can be read, the service
    answers the preprocessed payload with a non-empty text, and that text
    parses; its result is then the parsed fields stamped by the clock. *)
Theorem scan_succeeds_iff (t : nat) (f : File) (r : AnalysisResult) :
  scanFile host t f = Ok r
  <-> readable f = true
      /\ exists payload c text data,
           fileToBase64 host f = Ok payload
           /\ generateContent host t payload (effectiveMimeType f)
              = Ok (Some (String c text))
           /\ JSON_parse host (String c text) = Ok data
           /\ r = stamp data (now host t).
Proof.
  rewrite scanFile_unfold. pose proof (fileToBase64_readable host f) as Hread.
  unfold analyzeContent. split.
  - destruct (fileToBase64 host f) as [b|e]; [|discriminate].
    destruct (generateContent host t b (effectiveMimeType f)) as [[[|c text]|]|e]
      eqn:Eg; cbn [bind]; try discriminate.
    destruct (JSON_parse host (String c text)) as [data|e] eqn:Ep; cbn [bind];
      [|discriminate].
    intros H. injection H as <-. split; [now rewrite <- Hread|].
    exists b, c, text, data. repeat split; assumption.
  - intros [_ [b [c [text [data [Hf [Hg [Hp ->]]]]]]]].
    rewrite Hf, Hg. cbn [bind]. rewrite Hp. reflexivity.
Qed.

End Orchestration.

Section BatchReport.

Variable host : Host.

Lemma processQueue_lists (s : AppState) (f : File) (rest : list File) :
  view s = BATCH_PROCESSING ->
  batchQueue s = f :: rest ->
  batchResults (processQueue host s)
  = (batchResults s ++ batchWins host (tick s) [f])%list
  /\ map itemShape (history (processQueue host s))
     = (rev (map resultShape (batchWins host (tick s) [f]))
        ++ map itemShape (history s))%list.
Proof.
  intros Hv Hq. cbn [batchWins]. rewrite scanFile_unfold.
  unfold processQueue. rewrite Hv, Hq.
  destruct (fileToBase64 host f) as [b|e]; simpl.
  - destruct (analyzeContent host (tick s) b (effectiveMimeType f));
      destruct rest; simpl; rewrite ?app_nil_r; split; reflexivity.
  - destruct rest; simpl; rewrite ?app_nil_r; split; reflexivity.
Qed.

Lemma batchWins_cons (t : nat) (f : File) (rest : list File) :
  batchWins host t (f :: rest)
  = (batchWins host t [f] ++ batchWins host (S t) rest)%list.
Proof. cbn [batchWins]. now rewrite app_nil_r. Qed.

Lemma drainQueue_lists (files : list File) :
  forall s,
    view s = BATCH_PROCESSING ->
    batchQueue s = files ->
    let s' := drainQueue host (List.length files) s in
    batchResults s' = (batchResults s ++ batchWins host (tick s) files)%list
    /\ map itemShape (history s')
       = (rev (map resultShape (batchWins host (tick s) files))
          ++ map itemShape (history s))%list.
Proof.
  induction files as [|f rest IH]; intros s Hv Hq.
  - simpl. rewrite app_nil_r. split; reflexivity.
  - cbn [List.length drainQueue]. unfold queueActive. rewrite Hv, Hq.
    destruct (processQueue_step host s f rest Hv Hq) as [Hq1 [_ [_ [Ht1 [Hv1 _]]]]].
    destruct (processQueue_lists s f rest Hv Hq) as [Hb1 Hh1].
    rewrite batchWins_cons.
    destruct rest as [|g rest].
    + cbn [drainQueue List.length].
      change (batchWins host (S (tick s)) []) with (@nil BatchAnalysisResult).
      rewrite !app_nil_r. split; assumption.
    + destruct (IH (processQueue host s) Hv1 Hq1) as [Hb2 Hh2].
      rewrite Ht1 in Hb2, Hh2.
      split.
      * rewrite Hb2, Hb1, app_assoc. reflexivity.
      * rewrite Hh2, Hh1, map_app, rev_app_distr, app_assoc. reflexivity.
Qed.

(** X12. After a batch the report lists the files that passed, in input
    order, and the history holds the same results in the opposite order,
    in front of what it held before. *)
Theorem batch_results_in_order (files : list File) (s : AppState) :
  (2 <= List.length files)%nat ->
  let s' := drainQueue host (List.length files) (handleScanStart host files s) in
  batchResults s' = batchWins host (tick s) files
  /\ map itemShape (history s')
     = (rev (map resultShape (batchResults s')) ++ map itemShape (history s))%list.
Proof.
  intros Hn. cbv zeta.
  destruct files as [|f1 [|f2 rest]]; try (simpl in Hn; lia).
  set (files := f1 :: f2 :: rest) in *.
  destruct (drainQueue_lists files (handleScanStart host files s) eq_refl eq_refl)
    as [Hb Hh].
  change (batchResults (handleScanStart host files s)) with (@nil BatchAnalysisResult) in Hb.
  change (tick (handleScanStart host files s)) with (tick s) in Hb, Hh.
  change (history (handleScanStart host files s)) with (history s) in Hh.
  cbn [app] in Hb. rewrite Hb. split; [reflexivity | exact Hh].
Qed.

Lemma batchWins_all_fail (files : list File) :
  forall t, failures host t files = List.length files -> batchWins host t files = [].
Proof.
  induction files as [|f rest IH]; intros t H; [reflexivity|].
  cbn [failures List.length batchWins] in *.
  pose proof (failures_le host rest (S t)) as Hle.
  destruct (scanFile host t f); cbn [isOk] in H; [lia|].
  cbn [app]. apply IH. lia.
Qed.

(** X13. A batch in which every file fails still ends in the report view
    with status Complete; the report is empty, and its "synthetic
    saturation" [Math.round((0 / 0) * 100)] is NaN. *)
Theorem failed_batch_report (files : list File) (s : AppState) :
  (2 <= List.length files)%nat ->
  failures host (tick s) files = List.length files ->
  let s' := drainQueue host (List.length files) (handleScanStart host files s) in
  view s' = BATCH_RESULT
  /\ status s' = COMPLETE
  /\ batchResults s' = []
  /\ total (batchResults s') = 0
  /\ aiPercentage (batchResults s') = S754_nan.
Proof.
  intros Hn Hfail. cbv zeta.
  pose proof (batchWins_all_fail files (tick s) Hfail) as Hw.
  destruct files as [|f1 [|f2 rest]]; try (simpl in Hn; lia).
  set (files := f1 :: f2 :: rest) in *.
  destruct (drainQueue_lists files (handleScanStart host files s) eq_refl eq_refl)
    as [Hb _].
  change (batchResults (handleScanStart host files s)) with (@nil BatchAnalysisResult) in Hb.
  change (tick (handleScanStart host files s)) with (tick s) in Hb.
  rewrite Hw in Hb. cbn [app] in Hb.
  destruct (drainQueue_accounting host files (handleScanStart host files s)
              eq_refl eq_refl ltac:(discriminate)) as [Hv [Hst _]].
  rewrite Hb. repeat split; assumption.
Qed.

(** The queue after [j] runs of the effect. *)
Lemma drainQueue_progress (j : nat) :
  forall s,
    view s = BATCH_PROCESSING ->
    (j <= List.length (batchQueue s))%nat ->
    let s' := drainQueue host j s in
    batchProgress s' = batchProgress s + Z.of_nat j
    /\ batchQueue s' = skipn j (batchQueue s)
    /\ ((j < List.length (batchQueue s))%nat -> view s' = BATCH_PROCESSING).
Proof.
  induction j as [|j IH]; intros s Hv Hj.
  - cbn [drainQueue skipn]. split; [lia|]. split; [reflexivity | intros _; exact Hv].
  - destruct (batchQueue s) as [|f rest] eqn:Hq; [simpl in Hj; lia|].
    cbn [drainQueue]. unfold queueActive. rewrite Hv, Hq.
    destruct (processQueue_step host s f rest Hv Hq) as [Hq1 [Hp1 [_ [_ [Hv1 _]]]]].
    cbn [List.length] in Hj.
    destruct rest as [|g rest].
    + assert (j = 0%nat) by (simpl in Hj; lia). subst j. cbn [drainQueue skipn].
      split; [lia|]. split; [exact Hq1 | cbn [List.length]; lia].
    + destruct (IH (processQueue host s) Hv1 ltac:(rewrite Hq1; lia)) as [Hp2 [Hq2 Hv2]].
      rewrite Hq1 in Hq2, Hv2. cbn [skipn].
      split; [lia|]. split; [exact Hq2|].
      intros Hlt. apply Hv2. cbn [List.length] in *. lia.
Qed.

(** X14. While a batch of [n] files is processed the label reads
    "asset j+1 of n": after [j < n] runs of the effect the view is still
    the batch view, [j] files are done and [n - j] are queued. *)
Theorem progress_label (files : list File) (s : AppState) (j : nat) :
  (2 <= List.length files)%nat ->
  (j < List.length files)%nat ->
  let sj := drainQueue host j (handleScanStart host files s) in
  view sj = BATCH_PROCESSING
  /\ batchQueue sj = skipn j files
  /\ progressLabel sj = (Z.of_nat j + 1, Z.of_nat (List.length files)).
Proof.
  intros Hn Hj. cbv zeta.
  destruct files as [|f1 [|f2 rest]]; try (simpl in Hn; lia).
  set (files := f1 :: f2 :: rest) in *.
  destruct (drainQueue_progress j (handleScanStart host files s) eq_refl
              ltac:(change (batchQueue (handleScanStart host files s)) with files; lia))
    as [Hp [Hq Hv]].
  change (batchQueue (handleScanStart host files s)) with files in Hq, Hv.
  change (batchProgress (handleScanStart host files s)) with 0 in Hp.
  split; [apply Hv; exact Hj|]. split; [exact Hq|].
  unfold progressLabel. rewrite Hp, Hq, length_skipn. f_equal; lia.
Qed.

End BatchReport.

(** ** The scan cursor *)

Lemma entering_scanning (v w : ViewState) :
  sameView v w = false -> isScanning v = true -> isScanning w = false.
Proof. destruct v, w; try reflexivity; discriminate. Qed.

Lemma cursorStep_invariant (c : ScanCursor) (ev : CursorEvent) :
  cursorInvariant c -> cursorInvariant (cursorStep c ev).
Proof.
  intros [Hstep [Htext Hview]]. destruct ev as [v|]; unfold cursorStep.
  - unfold cursorRender.
    destruct (sameView v (cursorView c)) eqn:Esame;
      [exact (conj Hstep (conj Htext Hview))|].
    destruct (isScanning v) eqn:Ev; unfold cursorInvariant;
      cbn [cursorView scanStep scanText interval]; rewrite Ev.
    + rewrite (entering_scanning _ _ Esame Ev) in Hview.
      destruct Hview as [_ H0]. rewrite H0. split; [lia|]. split; [exact Htext | reflexivity].
    + split; [lia|]. split; [exact Htext|]. split; reflexivity.
  - unfold cursorTick. destruct (interval c) as [held|] eqn:Ei;
      [|unfold cursorInvariant; rewrite Ei; exact (conj Hstep (conj Htext Hview))].
    unfold cursorInvariant; cbn [cursorView scanStep scanText interval].
    destruct (isScanning (cursorView c)); [|destruct Hview; discriminate].
    injection Hview as ->.
    split; [|split; [right; reflexivity | reflexivity]].
    change (Z.of_nat (List.length FORENSIC_STEPS)) with 9.
    split; [apply Z.rem_nonneg | apply Z.rem_bound_pos]; lia.
Qed.

Lemma cursor_reachable (evs : list CursorEvent) :
  cursorInvariant (fold_left cursorStep evs initialCursor).
Proof.
  assert (H0 : cursorInvariant initialCursor).
  { split; [cbn; lia|]. split; [left; reflexivity | split; reflexivity]. }
  revert H0. generalize initialCursor.
  induction evs as [|ev evs IH]; intros c Hc; [exact Hc|].
  cbn [fold_left]. apply IH. now apply cursorStep_invariant.
Qed.

(** X15. The status line of the scanning screen never advances.  The
    interval callback reads the [scanStep] of the render in which the
    effect ran, which is 0: over any sequence of renders and interval
    ticks [scanStep] stays within 0..8 and is 0 outside the scanning view,
    and [scanText] is the initial empty text or the first of the nine
    steps. *)
Theorem scan_text_never_advances (evs : list CursorEvent) :
  let c := fold_left cursorStep evs initialCursor in
  0 <= scanStep c < 9
  /\ (isScanning (cursorView c) = false -> scanStep c = 0)
  /\ (scanText c = Some EmptyString
      \/ scanText c = nth_error FORENSIC_STEPS 0).
Proof.
  cbv zeta.
  pose proof (cursor_reachable evs) as H.
  destruct H as [Hstep [Htext Hview]].
  split; [exact Hstep|]. split; [|exact Htext].
  intros Hs. rewrite Hs in Hview. apply Hview.
Qed.

Lemma cursorTick_iter (n : nat) :
  forall c held,
    interval c = Some held ->
    0 <= scanStep c < 9 ->
    scanStep (Nat.iter n cursorTick c) = (scanStep c + Z.of_nat n) mod 9
    /\ interval (Nat.iter n cursorTick c) = Some held.
Proof.
  induction n as [|n IH]; intros c held Hi Hs.
  - change (Nat.iter 0 cursorTick c) with c.
    rewrite Z.add_0_r, Z.mod_small by lia. split; [reflexivity | exact Hi].
  - rewrite Nat.iter_succ. destruct (IH c held Hi Hs) as [IH1 IH2].
    set (x := Nat.iter n cursorTick c) in *.
    unfold cursorTick. rewrite IH2. cbn [scanStep interval].
    split; [|reflexivity].
    change (Z.of_nat (List.length FORENSIC_STEPS)) with 9.
    rewrite IH1, Z.rem_mod_nonneg.
    + rewrite Zplus_mod_idemp_l. f_equal. lia.
    + pose proof (Z.mod_pos_bound (scanStep c + Z.of_nat n) 9 ltac:(lia)). lia.
    + lia.
Qed.

(** X16. The step counter itself does cycle: [n] ticks after the scanning
    view was entered it is [n mod 9]. *)
Theorem scan_step_cycles (evs : list CursorEvent) (n : nat) :
  let c := fold_left cursorStep evs initialCursor in
  isScanning (cursorView c) = false ->
  scanStep (Nat.iter n cursorTick (cursorRender SCANNING c)) = Z.of_nat n mod 9.
Proof.
  cbv zeta. intros Hv.
  set (c := fold_left cursorStep evs initialCursor) in *.
  pose proof (cursor_reachable evs) as H. fold c in H.
  destruct H as [_ [_ Hview]]. rewrite Hv in Hview. destruct Hview as [_ H0].
  assert (Hr : cursorRender SCANNING c
               = {| cursorView := SCANNING; scanStep := 0; scanText := scanText c;
                    interval := Some 0 |}).
  { unfold cursorRender. destruct (cursorView c); try discriminate;
      cbn [sameView isScanning]; rewrite H0; reflexivity. }
  rewrite Hr.
  destruct (cursorTick_iter n
              {| cursorView := SCANNING; scanStep := 0; scanText := scanText c;
                 interval := Some 0 |} 0 eq_refl ltac:(cbn; lia)) as [H _].
  rewrite H. reflexivity.
Qed.

(** ** Dashboard *)

Lemma chartPoints_scores (history : list HistoryItem) :
  forall i, map pointScore (chartPoints i history)
            = map (fun h => score (analysis h)) history.
Proof.
  induction history as [|h rest IH]; intros i; [reflexivity|].
  cbn [chartPoints map pointScore]. now rewrite IH.
Qed.

Lemma chartPoints_names (history : list HistoryItem) :
  forall i k,
    (k < List.length history)%nat ->
    nth_error (map pointName (chartPoints i history)) k
    = Some ("Scan " ++ natToString (S (i + k))).
Proof.
  induction history as [|h rest IH]; intros i k Hk; [simpl in Hk; lia|].
  destruct k as [|k]; cbn [chartPoints map pointName nth_error].
  - now rewrite Nat.add_0_r.
  - rewrite IH by (simpl in Hk; lia). do 3 f_equal. lia.
Qed.

(** X17. With a non-empty history the trend chart has one point per
    scan, named "Scan 1", "Scan 2", ... in stored order, so "Scan 1" is the
    newest scan: the chart runs in the opposite direction to the list of
    recent logs below it.  With an empty history it shows the six mock
    points. *)
Theorem chart_runs_against_logs (item : HistoryItem) (older : list HistoryItem) :
  let history := item :: older in
  List.length (chartData history) = List.length history
  /\ map pointScore (chartData history)
     = rev (map (fun h => score (analysis h)) (recentLogs history))
  /\ (forall k, (k < List.length history)%nat ->
        nth_error (map pointName (chartData history)) k
        = Some ("Scan " ++ natToString (S k)))
  /\ List.length (chartData []) = 6%nat.
Proof.
  cbv zeta. unfold chartData.
  split; [|split; [|split]].
  - rewrite <- (length_map pointScore), chartPoints_scores, length_map. reflexivity.
  - rewrite chartPoints_scores. unfold recentLogs.
    now rewrite map_rev, rev_involutive.
  - intros k Hk. now rewrite chartPoints_names.
  - reflexivity.
Qed.

(** ** Scanner *)

(** The selections that are neither [null] nor empty. *)
Lemma handleFiles_timers (sels : list (option (list File))) :
  forall sc,
    timers (fold_left (fun sc fl => handleFiles fl sc) sels sc)
    = (timers sc
       ++ flat_map (fun fl => match fl with
                              | Some (f :: rest) => [f :: rest]
                              | _ => []
                              end) sels)%list.
Proof.
  induction sels as [|fl sels IH]; intros sc; cbn [fold_left flat_map].
  - now rewrite app_nil_r.
  - rewrite IH. destruct fl as [[|f rest]|]; cbn [handleFiles timers app];
      rewrite <- ?app_assoc; reflexivity.
Qed.

(** X18. The scanner never calls [onScanStart] without a file: over any
    sequence of selections each non-empty one sets exactly one timer, in
    order, and when a timer fires the controller is in the scanning view
    (one file) or the batch view (more) once [handleScanStart] has
    entered. *)
Theorem scanner_never_forwards_empty (host : Host)
  (sels : list (option (list File))) (s : AppState) :
  let sc := fold_left (fun sc fl => handleFiles fl sc) sels
              {| isDragging := false; previewFiles := []; timers := [] |} in
  Forall (fun files => files <> []) (timers sc)
  /\ List.length (timers sc)
     = List.length (filter (fun fl => match fl with
                                      | Some (_ :: _) => true
                                      | _ => false
                                      end) sels)
  /\ forall files rest,
       timers sc = files :: rest ->
       snd (timerFires host sc s) = handleScanStart host files s
       /\ (view (handleScanStart_enter files s) = SCANNING
           \/ view (handleScanStart_enter files s) = BATCH_PROCESSING).
Proof.
  cbv zeta. rewrite handleFiles_timers. cbn [timers app].
  set (sc := fold_left _ sels _).
  assert (Hall : Forall (fun files : list File => files <> [])
                   (flat_map (fun fl => match fl with
                                        | Some (f :: rest) => [f :: rest]
                                        | _ => []
                                        end) sels)).
  { induction sels as [|[[|f r]|] sels IH]; cbn [flat_map app]; auto.
    constructor; [discriminate | apply IH]. }
  split; [exact Hall|]. split.
  - clear. induction sels as [|[[|f r]|] sels IH]; cbn [flat_map filter app List.length];
      auto.
  - intros files rest Ht.
    assert (Hsc : timers sc = files :: rest)
      by (unfold sc; rewrite handleFiles_timers; exact Ht).
    split.
    + unfold timerFires. rewrite Hsc. reflexivity.
    + rewrite Ht in Hall. inversion Hall as [|x l Hne _]; subst.
      destruct files as [|f1 [|f2 more]]; [congruence | left | right]; reflexivity.
Qed.

(** ** Percentages *)

(** The two roundings of [(a / t) * 100] in integers; the names are those
    of [scaling_error], [mc] is the mantissa of 100 and [p] the rounded
    percentage. *)
Lemma percent_error (a t A T N1 D1 N2 D2 K ma mt mq mr q1 c1 q2 c2 p : Z) :
  0 < a <= t -> t < 2 ^ 32 ->
  0 < A -> ma = a * A -> 2 ^ 52 <= ma < 2 ^ 53 ->
  0 < T -> mt = t * T -> 2 ^ 52 <= mt < 2 ^ 53 ->
  1 <= N1 <= 2 -> 1 <= D1 <= 2 -> 1 <= N2 <= 2 ^ 53 -> 1 <= D2 <= 2 ->
  0 <= c1 <= 1 -> 0 <= c2 <= 1 ->
  mq * D1 = q1 + c1 ->
  q1 * N1 * mt <= ma * 2 ^ 53 < (q1 + 1) * N1 * mt ->
  mr * D2 = q2 + c2 ->
  q2 * N2 <= mq * (100 * 2 ^ 46) < (q2 + 1) * N2 ->
  0 < K -> K * (N1 * D1 * N2 * D2) * T = 2 ^ 99 * A ->
  2 * K * p <= 2 * mr + K < 2 * K * (p + 1) ->
  2 * p * t - t <= 200 * a <= 2 * p * t + t.
Proof.
  intros Ha Ht HA Hma Hma' HT Hmt Hmt' HN1 HD1 HN2 HD2 Hc1 Hc2 Hq1 Hq1' Hq2 Hq2' HK HKV Hp.
  set (mc := 100 * 2 ^ 46) in *.
  set (W := D1 * N1).
  set (V := N1 * D1 * N2 * D2) in *.
  set (Y := 2 ^ 99 * A) in *.
  set (X := mr * V).
  assert (HW : 0 < W) by (unfold W; apply Z.mul_pos_pos; lia).
  assert (HV : 0 < V) by (unfold V; repeat apply Z.mul_pos_pos; lia).
  assert (HY : 0 < Y) by (unfold Y; lia).
  (* the product rounding *)
  set (NW := N2 * W).
  assert (HNW : 0 < NW) by (unfold NW; apply Z.mul_pos_pos; lia).
  assert (S2 : X = (q2 + c2) * NW) by (unfold X, V, NW, W; rewrite <- Hq2; ring).
  assert (S3 : mq * mc * W - NW < X <= mq * mc * W + NW).
  { rewrite S2. unfold NW.
    assert (Hc : c2 = 0 \/ c2 = 1) by lia.
    assert (mq * mc - N2 < (q2 + c2) * N2 <= mq * mc + N2)
      by (destruct Hc as [-> | ->]; lia).
    replace ((q2 + c2) * (N2 * W)) with ((q2 + c2) * N2 * W) by ring.
    split.
    - replace (mq * mc * W - N2 * W) with ((mq * mc - N2) * W) by ring.
      apply Z.mul_lt_mono_pos_r; lia.
    - replace (mq * mc * W + N2 * W) with ((mq * mc + N2) * W) by ring.
      apply Z.mul_le_mono_nonneg_r; lia. }
  (* the quotient rounding *)
  set (G := (q1 + c1) * N1 * mt).
  set (R := N1 * mt).
  assert (HR : 0 < R <= 2 ^ 54).
  { unfold R. change (2 ^ 54) with (2 * 2 ^ 53).
    split; [apply Z.mul_pos_pos | apply Z.mul_le_mono_nonneg]; lia. }
  assert (S5 : ma * 2 ^ 53 - R < G <= ma * 2 ^ 53 + R).
  { assert (Hq1R : q1 * R <= ma * 2 ^ 53 < q1 * R + R) by (unfold R; lia).
    assert (HG : G = q1 * R + c1 * R) by (unfold G, R; ring).
    assert (Hc : c1 = 0 \/ c1 = 1) by lia.
    destruct Hc as [-> | ->]; lia. }
  assert (S4 : mt * (mq * mc * W) = mc * G)
    by (unfold W, G; replace (mt * (mq * mc * (D1 * N1)))
          with (mc * (mq * D1) * N1 * mt) by ring; rewrite Hq1; ring).
  assert (Hmc : 0 < mc < 2 ^ 53) by (unfold mc; split; reflexivity).
  assert (S6 : mc * (ma * 2 ^ 53) - mc * R < mt * (mq * mc * W)
               <= mc * (ma * 2 ^ 53) + mc * R).
  { rewrite S4. split.
    - replace (mc * (ma * 2 ^ 53) - mc * R) with (mc * (ma * 2 ^ 53 - R)) by ring.
      apply Z.mul_lt_mono_pos_l; lia.
    - replace (mc * (ma * 2 ^ 53) + mc * R) with (mc * (ma * 2 ^ 53 + R)) by ring.
      apply Z.mul_le_mono_nonneg_l; lia. }
  (* together *)
  set (E := mc * R + mt * NW).
  assert (Hmain : mc * (ma * 2 ^ 53) = 100 * a * Y).
  { unfold mc, Y. rewrite Hma. change (2 ^ 99) with (2 ^ 46 * 2 ^ 53). ring. }
  assert (S7 : 100 * a * Y - E < mt * X <= 100 * a * Y + E).
  { assert (mt * (mq * mc * W) - mt * NW < mt * X <= mt * (mq * mc * W) + mt * NW).
    { split.
      - replace (mt * (mq * mc * W) - mt * NW) with (mt * (mq * mc * W - NW)) by ring.
        apply Z.mul_lt_mono_pos_l; lia.
      - replace (mt * (mq * mc * W) + mt * NW) with (mt * (mq * mc * W + NW)) by ring.
        apply Z.mul_le_mono_nonneg_l; lia. }
    unfold E. lia. }
  assert (S8 : 0 <= 2 * E < Y).
  { unfold E.
    assert (0 <= mc * R <= 2 ^ 53 * 2 ^ 54)
      by (split; [apply Z.mul_nonneg_nonneg | apply Z.mul_le_mono_nonneg]; lia).
    assert (0 <= NW <= 2 ^ 53 * 4).
    { unfold NW, W. split; [lia|].
      assert (0 <= D1 * N1 <= 2 * 2)
        by (split; [apply Z.mul_nonneg_nonneg | apply Z.mul_le_mono_nonneg]; lia).
      apply Z.mul_le_mono_nonneg; lia. }
    assert (0 <= mt * NW <= 2 ^ 53 * (2 ^ 53 * 4))
      by (split; [apply Z.mul_nonneg_nonneg | apply Z.mul_le_mono_nonneg]; lia).
    assert (2 ^ 20 < A).
    { destruct (Z_lt_le_dec (2 ^ 20) A); [assumption|].
      assert (a * A <= (2 ^ 32 - 1) * 2 ^ 20) by (apply Z.mul_le_mono_nonneg; lia).
      change ((2 ^ 32 - 1) * 2 ^ 20) with (2 ^ 52 - 2 ^ 20) in *. lia. }
    unfold Y.
    change (2 ^ 53 * 2 ^ 54) with (2 ^ 107) in *.
    change (2 ^ 53 * (2 ^ 53 * 4)) with (2 ^ 108) in *.
    assert (2 ^ 99 * 2 ^ 20 < 2 ^ 99 * A) by (apply Z.mul_lt_mono_pos_l; lia).
    change (2 ^ 99 * 2 ^ 20) with (2 ^ 119) in *. lia. }
  (* the rounded percentage, scaled *)
  assert (HtY : mt * (K * V) = t * Y).
  { rewrite <- HKV, Hmt. ring. }
  assert (S1 : 2 * p * (t * Y) <= 2 * (mt * X) + t * Y < 2 * (p + 1) * (t * Y)).
  { rewrite <- HtY. unfold X.
    assert (H1 : (2 * K * p) * (V * mt) <= (2 * mr + K) * (V * mt))
      by (apply Z.mul_le_mono_nonneg_r; [apply Z.mul_nonneg_nonneg|]; lia).
    assert (H2 : (2 * mr + K) * (V * mt) < (2 * K * (p + 1)) * (V * mt))
      by (apply Z.mul_lt_mono_pos_r; [apply Z.mul_pos_pos|]; lia).
    split; [|].
    - replace (2 * p * (mt * (K * V))) with (2 * K * p * (V * mt)) by ring.
      replace (2 * (mt * (mr * V)) + mt * (K * V)) with ((2 * mr + K) * (V * mt)) by ring.
      exact H1.
    - replace (2 * (p + 1) * (mt * (K * V))) with (2 * K * (p + 1) * (V * mt)) by ring.
      replace (2 * (mt * (mr * V)) + mt * (K * V)) with ((2 * mr + K) * (V * mt)) by ring.
      exact H2. }
  split.
  - assert ((2 * p * t - t - 200 * a) * Y < 1 * Y) by lia.
    assert (2 * p * t - t - 200 * a < 1) by (apply Z.mul_lt_mono_pos_r with Y; lia). lia.
  - assert ((200 * a - 2 * p * t - t) * Y < 1 * Y) by lia.
    assert (200 * a - 2 * p * t - t < 1) by (apply Z.mul_lt_mono_pos_r with Y; lia). lia.
Qed.

(** [Math.round((a / t) * 100)] on doubles is the integer nearest to the
    exact percentage [100 * a / t]: the two roundings of the quotient and
    of the product never move it across a half. *)
Lemma percent_nearest (a t : Z) :
  0 <= a <= t -> 0 < t < 2 ^ 32 ->
  exists p,
    percent a t = Num.ofZ p
    /\ 0 <= p <= 100
    /\ 2 * p * t - t <= 200 * a <= 2 * p * t + t.
Proof.
  intros Ha Ht.
  assert (H53 : (2 : Z) ^ 32 < 2 ^ 53) by reflexivity.
  unfold percent.
  destruct (ofZ_exact t ltac:(lia)) as [mt [kt [Et [Hkt [Hmt Hmt']]]]].
  destruct (Z.eq_dec a 0) as [-> | Hne].
  { exists 0. rewrite Et. split; [reflexivity | lia]. }
  destruct (ofZ_exact a ltac:(lia)) as [ma [ka [Ea [Hka [Hma Hma']]]]].
  rewrite Ea, Et.
  destruct (div_faithful ma mt (- ka) (- kt) Hma' Hmt' ltac:(lia))
    as [mq [eq [n1 [c1 [d1 [q1 [Eq [Hn1 [Hc1 [Hd1 [Heq [Hmq [Hq1 Hmq']]]]]]]]]]]]].
  rewrite Eq.
  assert (Ec : Num.ofZ 100 = S754_finite false 7036874417766400 (-46)) by reflexivity.
  rewrite Ec.
  destruct (mul_faithful mq 7036874417766400 eq (-46) Hmq'
              ltac:(split; [discriminate | reflexivity]) ltac:(lia))
    as [mr [er [n2 [c2 [d2 [q2 [Er [Hn2 [Hc2 [Hd2 [Her [Hmr [Hq2 Hmr']]]]]]]]]]]]].
  rewrite Er.
  (* the exponents *)
  assert (PA : 0 < 2 ^ ka) by (apply pow2_pos; lia).
  assert (PT : 0 < 2 ^ kt) by (apply pow2_pos; lia).
  assert (Hk : kt <= ka).
  { destruct (Z_le_gt_dec kt ka); [assumption|].
    assert (2 * 2 ^ ka <= 2 ^ kt).
    { replace kt with (1 + ka + (kt - ka - 1)) by lia.
      rewrite !Z.pow_add_r by lia. change (2 ^ 1) with 2.
      assert (0 < 2 ^ (kt - ka - 1)) by (apply pow2_pos; lia).
      replace (2 * 2 ^ ka) with (2 * 2 ^ ka * 1) at 1 by ring.
      apply Z.mul_le_mono_nonneg_l; lia. }
    assert (a * (2 * 2 ^ ka) <= t * 2 ^ kt) by (apply Z.mul_le_mono_nonneg; lia).
    lia. }
  assert (Hd1' : 0 <= d1 <= 1) by lia.
  assert (Hd2' : 0 <= d2 <= 1) by lia.
  assert (Hneg : er < 0) by lia.
  destruct er as [|pe|pe]; try lia.
  cbn [mathRound].
  set (K := 2 ^ Zpos pe).
  set (p := (2 * Zpos mr + K) / (2 * K)).
  assert (HK : 0 < K) by (unfold K; apply pow2_pos; lia).
  assert (Hp : 2 * K * p <= 2 * Zpos mr + K < 2 * K * (p + 1)).
  { pose proof (Z_div_mod (2 * Zpos mr + K) (2 * K) ltac:(lia)) as Hdm.
    unfold p, Z.div. destruct (Z.div_eucl (2 * Zpos mr + K) (2 * K)) as [q r]. lia. }
  assert (Hp0 : 0 <= p) by (unfold p; apply Z.div_pos; lia).
  assert (PN1 : 1 <= 2 ^ n1 <= 2) by (apply pow2_bit; lia).
  assert (PD1 : 1 <= 2 ^ d1 <= 2) by (apply pow2_bit; lia).
  assert (PD2 : 1 <= 2 ^ d2 <= 2) by (apply pow2_bit; lia).
  assert (PN2 : 1 <= 2 ^ n2 <= 2 ^ 53).
  { split; [assert (0 < 2 ^ n2) by (apply pow2_pos; lia); lia
           | apply Z.pow_le_mono_r; lia]. }
  assert (PK : K * (2 ^ n1 * 2 ^ d1 * 2 ^ n2 * 2 ^ d2) * 2 ^ kt = 2 ^ 99 * 2 ^ ka)
    by (unfold K; rewrite <- !Z.pow_add_r by lia; f_equal; lia).
  assert (Hc1' : 0 <= c1 <= 1) by lia.
  assert (Hc2' : 0 <= c2 <= 1) by lia.
  assert (Ha' : 0 < a <= t) by lia.
  assert (Ht' : t < 2 ^ 32) by lia.
  assert (Hq2' : q2 * 2 ^ n2 <= Zpos mq * (100 * 2 ^ 46) < (q2 + 1) * 2 ^ n2)
    by exact Hq2.
  assert (Hmain : 2 * p * t - t <= 200 * a <= 2 * p * t + t).
  { apply (percent_error a t (2 ^ ka) (2 ^ kt) (2 ^ n1) (2 ^ d1) (2 ^ n2) (2 ^ d2) K
             (Zpos ma) (Zpos mt) (Zpos mq) (Zpos mr) q1 c1 q2 c2 p);
      assumption. }
  exists p. split; [| split; [| exact Hmain]].
  - cbv zeta. fold K. fold p. destruct (p =? 0) eqn:E0; [|reflexivity].
    apply Z.eqb_eq in E0. rewrite E0. reflexivity.
  - split; [assumption|].
    destruct (Z_le_gt_dec p 100); [assumption|].
    assert (101 * t <= p * t) by (apply Z.mul_le_mono_nonneg_r; lia). lia.
Qed.

(** X19. The progress bar of the batch view is as wide as the share of
    the files done, rounded to the nearest whole percent: after [j] of [n]
    files its width is an integer [p] of 0..100 with
    [|100 * j / n - p| <= 1/2]. *)
Theorem progress_bar_width (host : Host) (files : list File) (s : AppState) (j : nat) :
  (2 <= List.length files)%nat ->
  Z.of_nat (List.length files) < 2 ^ 32 ->
  (j < List.length files)%nat ->
  let sj := drainQueue host j (handleScanStart host files s) in
  let n := Z.of_nat (List.length files) in
  exists p,
    progressWidth sj = Num.ofZ p
    /\ 0 <= p <= 100
    /\ 2 * p * n - n <= 200 * Z.of_nat j <= 2 * p * n + n.
Proof.
  intros Hn H32 Hj. cbv zeta.
  destruct files as [|f1 [|f2 rest]]; try (simpl in Hn; lia).
  set (files := f1 :: f2 :: rest) in *.
  destruct (drainQueue_progress host j (handleScanStart host files s) eq_refl
              ltac:(change (batchQueue (handleScanStart host files s)) with files; lia))
    as [Hp [Hq _]].
  change (batchQueue (handleScanStart host files s)) with files in Hq.
  change (batchProgress (handleScanStart host files s)) with 0 in Hp.
  unfold progressWidth. rewrite Hp, Hq, length_skipn.
  replace (0 + Z.of_nat j + Z.of_nat (List.length files - j))
    with (Z.of_nat (List.length files)) by lia.
  replace (0 + Z.of_nat j) with (Z.of_nat j) by lia.
  apply percent_nearest; lia.
Qed.

(** X20. In the report of a batch with at least one result the two
    counts add up to the total, and the "synthetic saturation" is the
    share of the results flagged as AI, rounded to the nearest whole
    percent: an integer [p] of 0..100 with
    [|100 * aiCount / total - p| <= 1/2]. *)
Theorem ai_percentage_nearest (results : list BatchAnalysisResult) :
  results <> [] ->
  total results < 2 ^ 32 ->
  0 <= aiCount results <= total results
  /\ aiCount results + realCount results = total results
  /\ exists p,
       aiPercentage results = Num.ofZ p
       /\ 0 <= p <= 100
       /\ 2 * p * total results - total results
          <= 200 * aiCount results
          <= 2 * p * total results + total results.
Proof.
  intros Hne H32.
  assert (Hc : 0 <= aiCount results <= total results).
  { unfold aiCount, total.
    pose proof (filter_length_le (fun r => truthy (isAI (result r))) results). lia. }
  assert (Ht : 0 < total results).
  { unfold total. destruct results; [congruence | simpl; lia]. }
  split; [exact Hc|]. split; [unfold realCount; lia|].
  unfold aiPercentage. apply percent_nearest; lia.
Qed.

(** * Preprocessing, orchestration and display on concrete inputs *)

(** X1, on a photo with a canvas that throws and with one that does
    not, and on a file that cannot be read. *)
Lemma fileToBase64_settlement_witness :
  fileToBase64Promise demoHost brokenCanvas photo = Pending
  /\ fileToBase64Promise demoHost soundCanvas photo = Settled (Ok "JPEGRAWJPG")
  /\ fileToBase64Promise demoHost brokenCanvas brokenPng = Settled (Ok "RAWPNG")
  /\ exists e, fileToBase64Promise demoHost brokenCanvas lostFile = Settled (Err e).
Proof.
  split; [exact (proj2 (proj1 (fileToBase64_settlement demoHost brokenCanvas photo))
                   eq_refl)|].
  split; [exact (proj2 (proj2 (proj2 (fileToBase64_settlement demoHost soundCanvas photo)))
                   eq_refl)|].
  split; [exact (proj2 (proj2 (proj2 (fileToBase64_settlement demoHost brokenCanvas
                                        brokenPng)))
                   eq_refl)|].
  exact (proj2 (proj1 (proj2 (fileToBase64_settlement demoHost brokenCanvas lostFile)))
           eq_refl).
Defined.

(** X2, on a video clip. *)
Lemma non_image_passes_through_witness :
  startsWith (type clip) "image/" = false
  /\ readable clip = true
  /\ includes (type clip) "," = false
  /\ includes (rawBase64 clip) "," = false
  /\ fileToBase64 demoHost clip = Ok "BAD"
  /\ requests (handleScanStart demoHost [clip] initialState) = [("BAD", "video/mp4")].
Proof.
  do 4 (split; [reflexivity|]).
  exact (non_image_passes_through demoHost clip initialState
           eq_refl eq_refl eq_refl eq_refl).
Defined.

(** X3, on a 4000 x 3000 photo. *)
Lemma canvasSize_within_box_witness :
  0 <= 4000 < 2 ^ 32
  /\ 0 <= 3000 < 2 ^ 32
  /\ 0 <= fst (canvasSize 4000 3000) <= Z.min 4000 1024
  /\ 0 <= snd (canvasSize 4000 3000) <= Z.min 3000 1024.
Proof.
  assert (Hw : 0 <= 4000 < 2 ^ 32) by lia.
  assert (Hh : 0 <= 3000 < 2 ^ 32) by lia.
  split; [exact Hw|]. split; [exact Hh|].
  exact (canvasSize_within_box 4000 3000 Hw Hh).
Defined.

(** X4, on a 3000 x 4000 photo. *)
Lemma canvasSize_idempotent_witness :
  0 <= 3000 < 2 ^ 32
  /\ 0 <= 4000 < 2 ^ 32
  /\ canvasSize (fst (canvasSize 3000 4000)) (snd (canvasSize 3000 4000))
     = canvasSize 3000 4000.
Proof.
  assert (Hw : 0 <= 3000 < 2 ^ 32) by lia.
  assert (Hh : 0 <= 4000 < 2 ^ 32) by lia.
  split; [exact Hw|]. split; [exact Hh|].
  exact (canvasSize_idempotent 3000 4000 Hw Hh).
Defined.

(** X5, on a strip of 5000 x 2 pixels. *)
Lemma sliver_gives_empty_payload_witness :
  image sliver = Decoded 5000 2
  /\ 0 <= 5000 < 2 ^ 32
  /\ 0 <= 2 < 2 ^ 32
  /\ ((1024 < 5000 /\ 1024 * 2 < 5000) \/ (1024 < 2 /\ 1024 * 5000 < 2))
  /\ exists o,
       optimizeImageForMobile demoHost sliver = Ok o
       /\ (optWidth o = 0 \/ optHeight o = 0) /\ optBase64 o = EmptyString.
Proof.
  assert (Hw : 0 <= 5000 < 2 ^ 32) by lia.
  assert (Hh : 0 <= 2 < 2 ^ 32) by lia.
  assert (Hs : (1024 < 5000 /\ 1024 * 2 < 5000) \/ (1024 < 2 /\ 1024 * 5000 < 2))
    by (left; lia).
  split; [reflexivity|]. split; [exact Hw|]. split; [exact Hh|]. split; [exact Hs|].
  eexists. split; [reflexivity|].
  exact (sliver_gives_empty_payload demoHost sliver 5000 2 _ eq_refl Hw Hh Hs eq_refl).
Defined.

(** X6, on a photo that the service accepts. *)
Lemma single_scan_success_witness :
  exists r,
    scanFile demoHost (tick initialState) photo = Ok r
    /\ requests (handleScanStart demoHost [photo] initialState)
       = [("JPEGRAWJPG", "image/jpeg")]
    /\ currentResult (handleScanStart demoHost [photo] initialState) = Some r
    /\ view (handleScanStart demoHost [photo] initialState) = RESULT
    /\ status (handleScanStart demoHost [photo] initialState) = COMPLETE
    /\ alerts (handleScanStart demoHost [photo] initialState) = [].
Proof.
  eexists. split; [reflexivity|].
  destruct (single_scan_success demoHost initialState photo _ eq_refl)
    as [payload [Hf [Hq [_ [Hr [Hv [Hs Ha]]]]]]].
  injection Hf as <-.
  split; [exact Hq|]. split; [exact Hr|]. split; [exact Hv|].
  split; [exact Hs | exact Ha].
Defined.

(** X7, on a clip that the service refuses, followed by the injection of
    the empty object. *)
Lemma injection_after_failed_request_witness :
  fileToBase64 demoHost clip = Ok "BAD"
  /\ analyzeContent demoHost (tick initialState) "BAD" (effectiveMimeType clip)
     = Err (ErrorObj "503 Service Unavailable")
  /\ nullish (parsePayload demoHost (JObj [])) = false
  /\ view (handleScanStart demoHost [clip] initialState) = HOME
  /\ resultViewShown
       (handleResult demoHost (JObj []) (handleScanStart demoHost [clip] initialState))
     = true.
Proof.
  do 3 (split; [reflexivity|]).
  destruct (injection_after_failed_request demoHost initialState clip "BAD"
              (ErrorObj "503 Service Unavailable") (JObj []) eq_refl eq_refl eq_refl)
    as [Hv [_ [_ Hs]]].
  split; [exact Hv | exact Hs].
Defined.

(** X8, on the JSON text [null] injected after a result. *)
Lemma nullish_injection_dropped_witness :
  nullish (parsePayload demoHost (JStr "null")) = true
  /\ view (handleResult demoHost (JStr "null") afterFirstInjection)
     = view afterFirstInjection
  /\ currentResult (handleResult demoHost (JStr "null") afterFirstInjection)
     = currentResult afterFirstInjection
  /\ history (handleResult demoHost (JStr "null") afterFirstInjection)
     = history afterFirstInjection.
Proof.
  split; [reflexivity|].
  destruct (nullish_injection_dropped demoHost (JStr "null") afterFirstInjection eq_refl)
    as [Hv [_ [_ [Hr [Hh _]]]]].
  split; [exact Hv|]. split; [exact Hr | exact Hh].
Defined.

(** X9, on a payload that holds a video analysis, injected while a video
    clip is the current file. *)
Lemma injection_never_scrubs_witness :
  nullish (parsePayload demoHost completePayload) = false
  /\ truthy (spreadProp completePayload "videoAnalysis") = true
  /\ exists r fd,
       currentResult
         (handleResult demoHost completePayload
            (handleScanStart demoHost [clip] initialState)) = Some r
       /\ currentFile
            (handleResult demoHost completePayload
               (handleScanStart demoHost [clip] initialState)) = Some fd
       /\ isVideoFile fd = true
       /\ hasVideoAnalysis r = false
       /\ canScrubVideo fd r = false.
Proof.
  split; [reflexivity|]. split; [reflexivity|].
  destruct (injection_never_scrubs demoHost completePayload
              (handleScanStart demoHost [clip] initialState) eq_refl)
    as [r [Hr [_ [Hh Hc]]]].
  exists r. eexists. split; [exact Hr|]. split; [reflexivity|].
  split; [reflexivity|]. split; [exact Hh | apply Hc].
Defined.

(** X10, on a payload with every field set. *)
Lemma complete_payload_preserved_witness :
  nullish completePayload = false
  /\ isNumber (spreadProp completePayload "score") = true
  /\ exists r,
       mapResult completePayload "2024-05-01T12:00:00.0Z" = Ok r
       /\ score r = num 88
       /\ verdict r = JStr "Synthetic"
       /\ videoAnalysis r = JUndefined.
Proof.
  split; [reflexivity|]. split; [reflexivity|].
  eexists. split.
  - exact (complete_payload_preserved completePayload "2024-05-01T12:00:00.0Z"
             eq_refl eq_refl eq_refl).
  - repeat split.
Defined.

(** X11, on a photo that the service accepts. *)
Lemma scan_succeeds_iff_witness :
  exists r,
    scanFile demoHost 0 photo = Ok r
    /\ readable photo = true
    /\ exists payload c text data,
         fileToBase64 demoHost photo = Ok payload
         /\ generateContent demoHost 0 payload (effectiveMimeType photo)
            = Ok (Some (String c text))
         /\ JSON_parse demoHost (String c text) = Ok data
         /\ r = stamp data (now demoHost 0).
Proof.
  eexists. split; [reflexivity|].
  exact (proj1 (scan_succeeds_iff demoHost 0 photo _) eq_refl).
Defined.

(** X12, on the batch of three files whose second is refused. *)
Lemma batch_results_in_order_witness :
  (2 <= List.length demoBatch)%nat
  /\ map fileName
       (batchResults
          (drainQueue demoHost 3 (handleScanStart demoHost demoBatch initialState)))
     = ["a.png"; "b.jpg"].
Proof.
  assert (H2 : (2 <= List.length demoBatch)%nat) by (simpl; lia).
  split; [exact H2|].
  destruct (batch_results_in_order demoHost demoBatch initialState H2) as [Hb _].
  change (List.length demoBatch) with 3%nat in Hb.
  rewrite Hb. reflexivity.
Defined.

(** X13, on a batch of two clips that the service refuses. *)
Lemma failed_batch_report_witness :
  (2 <= List.length deadBatch)%nat
  /\ failures demoHost (tick initialState) deadBatch = List.length deadBatch
  /\ view (drainQueue demoHost 2 (handleScanStart demoHost deadBatch initialState))
     = BATCH_RESULT
  /\ aiPercentage
       (batchResults
          (drainQueue demoHost 2 (handleScanStart demoHost deadBatch initialState)))
     = S754_nan.
Proof.
  assert (H2 : (2 <= List.length deadBatch)%nat) by (simpl; lia).
  split; [exact H2|]. split; [reflexivity|].
  destruct (failed_batch_report demoHost deadBatch initialState H2 eq_refl)
    as [Hv [_ [_ [_ Hp]]]].
  split; [exact Hv | exact Hp].
Defined.

(** X14, on the batch of three files after one of them. *)
Lemma progress_label_witness :
  (2 <= List.length demoBatch)%nat
  /\ (1 < List.length demoBatch)%nat
  /\ view (drainQueue demoHost 1 (handleScanStart demoHost demoBatch initialState))
     = BATCH_PROCESSING
  /\ progressLabel
       (drainQueue demoHost 1 (handleScanStart demoHost demoBatch initialState))
     = (2, 3).
Proof.
  assert (H2 : (2 <= List.length demoBatch)%nat) by (simpl; lia).
  assert (H1 : (1 < List.length demoBatch)%nat) by (simpl; lia).
  split; [exact H2|]. split; [exact H1|].
  destruct (progress_label demoHost demoBatch initialState 1 H2 H1) as [Hv [_ Hl]].
  split; [exact Hv | exact Hl].
Defined.

(** X15, on a scan of two ticks that ends in the result view. *)
Lemma scan_text_never_advances_witness :
  isScanning
    (cursorView
       (fold_left cursorStep [Render SCANNING; IntervalFires; IntervalFires; Render RESULT]
          initialCursor)) = false
  /\ scanStep
       (fold_left cursorStep [Render SCANNING; IntervalFires; IntervalFires; Render RESULT]
          initialCursor) = 0.
Proof.
  split; [reflexivity|].
  exact (proj1 (proj2 (scan_text_never_advances
                         [Render SCANNING; IntervalFires; IntervalFires; Render RESULT]))
           eq_refl).
Defined.

(** X16, ten ticks into the first scan. *)
Lemma scan_step_cycles_witness :
  isScanning (cursorView (fold_left cursorStep [] initialCursor)) = false
  /\ scanStep (Nat.iter 10 cursorTick (cursorRender SCANNING initialCursor)) = 1.
Proof.
  split; [reflexivity|].
  exact (scan_step_cycles [] 10 eq_refl).
Defined.

(** X17, on the history after two injections. *)
Lemma chart_runs_against_logs_witness :
  exists item older,
    history afterSecondInjection = item :: older
    /\ (0 < List.length (item :: older))%nat
    /\ nth_error (map pointName (chartData (item :: older))) 0 = Some "Scan 1".
Proof.
  eexists. eexists. split; [reflexivity|].
  split; [simpl; lia|].
  apply (proj1 (proj2 (proj2 (chart_runs_against_logs _ _)))).
  simpl; lia.
Defined.

(** X18, on an empty selection, a cancelled one and one photo. *)
Lemma scanner_never_forwards_empty_witness :
  timers (fold_left (fun sc fl => handleFiles fl sc) [None; Some []; Some [photo]]
            {| isDragging := false; previewFiles := []; timers := [] |})
  = [[photo]]
  /\ view (handleScanStart_enter [photo] initialState) = SCANNING.
Proof.
  split; [reflexivity|].
  destruct (proj2 (proj2 (scanner_never_forwards_empty demoHost
                            [None; Some []; Some [photo]] initialState))
              [photo] [] eq_refl) as [_ [Hv | Hv]].
  - exact Hv.
  - discriminate Hv.
Defined.

(** X19, on the batch of three files after one of them: 33 percent. *)
Lemma progress_bar_width_witness :
  (2 <= List.length demoBatch)%nat
  /\ Z.of_nat (List.length demoBatch) < 2 ^ 32
  /\ (1 < List.length demoBatch)%nat
  /\ exists p,
       progressWidth
         (drainQueue demoHost 1 (handleScanStart demoHost demoBatch initialState))
       = Num.ofZ p
       /\ p = 33.
Proof.
  assert (H2 : (2 <= List.length demoBatch)%nat) by (simpl; lia).
  assert (H32 : Z.of_nat (List.length demoBatch) < 2 ^ 32) by reflexivity.
  assert (H1 : (1 < List.length demoBatch)%nat) by (simpl; lia).
  split; [exact H2|]. split; [exact H32|]. split; [exact H1|].
  destruct (progress_bar_width demoHost demoBatch initialState 1 H2 H32 H1)
    as [p [Hp [_ Hn]]].
  exists p. split; [exact Hp|].
  change (Z.of_nat (List.length demoBatch)) with 3 in Hn.
  change (Z.of_nat 1) with 1 in Hn. lia.
Defined.

(** X20, on the report of the batch of three files: both results are
    flagged, 100 percent. *)
Lemma ai_percentage_nearest_witness :
  demoReport <> []
  /\ total demoReport < 2 ^ 32
  /\ aiCount demoReport + realCount demoReport = total demoReport
  /\ exists p, aiPercentage demoReport = Num.ofZ p /\ p = 100.
Proof.
  assert (Hne : demoReport <> []) by (vm_compute; discriminate).
  assert (H32 : total demoReport < 2 ^ 32) by reflexivity.
  split; [exact Hne|]. split; [exact H32|].
  destruct (ai_percentage_nearest demoReport Hne H32) as [_ [Hs [p [Hp [_ Hn]]]]].
  split; [exact Hs|].
  exists p. split; [exact Hp|].
  change (total demoReport) with 2 in Hn.
  change (aiCount demoReport) with 2 in Hn. lia.
Defined.

(** X21, on a 4000 x 3000 photo: the payload is the encoder's text for a
    canvas of 1024 x 768. *)
Lemma optimized_payload_dimensions_witness :
  image photo = Decoded 4000 3000
  /\ 1 <= 4000 < 2 ^ 32
  /\ 1 <= 3000 < 2 ^ 32
  /\ (Z.max 4000 3000 <= 1024 \/ Z.max 4000 3000 < 1024 * Z.min 4000 3000)
  /\ exists o,
       optimizeImageForMobile demoHost photo = Ok o
       /\ canvasSize 4000 3000 = (1024, 768)
       /\ optBase64 o = encodeCanvas demoHost photo 1024 768 "image/jpeg" JPEG_QUALITY
       /\ 768 * 4000 <= 1024 * 3000 <= (768 + 1) * 4000.
Proof.
  assert (Hw : 1 <= 4000 < 2 ^ 32) by lia.
  assert (Hh : 1 <= 3000 < 2 ^ 32) by lia.
  assert (Hf : Z.max 4000 3000 <= 1024 \/ Z.max 4000 3000 < 1024 * Z.min 4000 3000)
    by (right; reflexivity).
  split; [reflexivity|]. split; [exact Hw|]. split; [exact Hh|]. split; [exact Hf|].
  eexists. split; [reflexivity|].
  destruct (optimized_payload_dimensions demoHost photo 4000 3000 _ eq_refl Hw Hh Hf
              eq_refl)
    as [cw [ch [Hsize [_ [_ [_ [_ [Hclean [_ [_ [_ Hbig]]]]]]]]]]].
  injection Hsize as <- <-.
  split; [reflexivity|]. split; [exact (Hclean eq_refl)|].
  destruct (Hbig ltac:(lia)) as [_ Hq]. exact (proj2 Hq).
Defined.
